(** * News reader: offline cache, content fetch layer and reading analytics

    Shallow embedding of
      - [src/services/cacheStorage.ts]          (module [CacheStorage]),
      - [src/services/newsApi.ts]               (module [NewsApi]),
      - [src/services/readingHistoryService.ts] (module [ReadingHistoryService]),
      - [saveReadingHistory] of the article screen (module [ArticleScreen]),
      - the loaders and handlers of [src/screens/HomeScreen.tsx]
        (module [HomeScreen]),
    followed by the properties of the natural-language specification and by
    further properties of the code.

    Conventions of the embedding.
      - [AsyncStorage] is a finite map from string keys to stored values.
        Values are kept in parsed form: [JSON.stringify] followed by
        [JSON.parse] is the identity on the records the services store.
      - Storage calls and the network never interleave with another caller
        (one reader/writer), and storage calls themselves do not fail.
      - Every [Date.now()] of the source is an explicit argument, in
        milliseconds since the epoch, as an integer [Z].
      - An [async] function that mutates storage takes the storage and returns
        the new one, together with its result when it has one.
      - The [useState] cells of a component are the fields of a record; a
        setter writes its field, and a handler runs to its end, request
        included, before the next one starts. *)

From Stdlib Require Import ZArith QArith Lia.
From stdpp Require Import base decidable option list gmap strings pretty sorting.

Local Open Scope Z_scope.

(** ** [src/types/index.ts] *)

Module Types.

Record ArticleSource := { id : option string; name : string }.

Record Article := {
  source : ArticleSource;
  author : option string;
  title : string;
  description : option string;
  url : string;
  urlToImage : option string;
  publishedAt : string;
  content : option string;
}.

Record NewsApiResponse := {
  status : string;
  totalResults : Z;
  articles : list Article;
}.

(** The union type ['general' | 'business' | ...]: at run time a string. *)
Inductive Category :=
  general | business | technology | sports | health | entertainment | science.

Definition Category_toString (c : Category) : string :=
  match c with
  | general => "general"
  | business => "business"
  | technology => "technology"
  | sports => "sports"
  | health => "health"
  | entertainment => "entertainment"
  | science => "science"
  end.

End Types.

(** ** [src/services/cacheStorage.ts] *)

Module CacheStorage.

Definition CACHE_PREFIX : string := "@news_cache_".
Definition CACHE_METADATA_KEY : string := "@news_cache_metadata".
Definition CACHE_EXPIRY_HOURS : Z := 24.

(** [interface CacheMetadata] *)
Module CacheMetadata.
Record t := {
  key : string;
  timestamp : Z;
  category : option string;
  query : option string;
}.
End CacheMetadata.

(** [Omit<CacheMetadata, 'timestamp'>], the argument of [cacheArticles]. *)
Module MetadataArg.
Record t := {
  key : string;
  category : option string;
  query : option string;
}.
End MetadataArg.

(** [interface CacheEntry] *)
Module CacheEntry.
Record t := {
  data : Types.NewsApiResponse;
  timestamp : Z;
}.
End CacheEntry.

(** What a key of [AsyncStorage] holds, as [JSON.parse] returns it: a cache
    entry object or the array of metadata rows. *)
Inductive Stored :=
| SEntry (e : CacheEntry.t)
| SMeta (rows : list CacheMetadata.t).

Abbreviation Storage := (gmap string Stored).

(** The request type ['category' | 'search'] of [generateCacheKey]. *)
Inductive RequestType := category | search.

Definition RequestType_toString (t : RequestType) : string :=
  match t with category => "category" | search => "search" end.

Definition generateCacheKey (type : RequestType) (value : string) : string :=
  CACHE_PREFIX +:+ RequestType_toString type +:+ "_" +:+ value.

(** [getCacheMetadata]: the parsed value under [CACHE_METADATA_KEY], or the
    empty array when the key is absent.  The source returns whatever
    [JSON.parse] gives; it is an array only if an array was stored. *)
Definition getCacheMetadata (s : Storage) : Stored :=
  match s !! CACHE_METADATA_KEY with
  | Some v => v
  | None => SMeta []
  end.

(** Receiver of an array method ([filter], [map], [for ... of]): [None] is
    the [TypeError] thrown when the parsed value is not an array; every
    caller runs inside a [try] whose [catch] logs and returns. *)
Definition asArray (v : Stored) : option (list CacheMetadata.t) :=
  match v with
  | SMeta rows => Some rows
  | SEntry _ => None
  end.

Definition maxAge : Z := CACHE_EXPIRY_HOURS * 60 * 60 * 1000.

(** [cacheArticles(key, data, metadata)]; [now1] and [now2] are the two
    [Date.now()] readings, for the entry and for the metadata row. *)
Definition cacheArticles (key : string) (data : Types.NewsApiResponse)
    (metadata : MetadataArg.t) (now1 now2 : Z) (s : Storage) : Storage :=
  let cacheEntry := {| CacheEntry.data := data; CacheEntry.timestamp := now1 |} in
  let s1 := <[key := SEntry cacheEntry]> s in
  match asArray (getCacheMetadata s1) with
  | Some existingMetadata =>
      let newMetadata :=
        {| CacheMetadata.key := MetadataArg.key metadata;
           CacheMetadata.timestamp := now2;
           CacheMetadata.category := MetadataArg.category metadata;
           CacheMetadata.query := MetadataArg.query metadata |} in
      let updatedMetadata :=
        newMetadata :: filter (λ m, CacheMetadata.key m ≠ key) existingMetadata in
      <[CACHE_METADATA_KEY := SMeta updatedMetadata]> s1
  | None => s1
  end.

(** [clearCache(key)] *)
Definition clearCache (key : string) (s : Storage) : Storage :=
  let s1 := delete key s in
  match asArray (getCacheMetadata s1) with
  | Some metadata =>
      let updatedMetadata := filter (λ m, CacheMetadata.key m ≠ key) metadata in
      <[CACHE_METADATA_KEY := SMeta updatedMetadata]> s1
  | None => s1
  end.

(** [getCachedArticles(key)] at time [now]: the payload ([None] is [null])
    and the storage it leaves.  When the key holds an array instead of an
    entry, [cacheEntry.timestamp] is [undefined], the age is [NaN], the
    expiry test is false and [cacheEntry.data] is [undefined]: no payload. *)
Definition getCachedArticles (key : string) (now : Z) (s : Storage)
    : option Types.NewsApiResponse * Storage :=
  match s !! key with
  | None => (None, s)
  | Some (SEntry cacheEntry) =>
      let age := now - CacheEntry.timestamp cacheEntry in
      if bool_decide (age > maxAge)
      then (None, clearCache key s)
      else (Some (CacheEntry.data cacheEntry), s)
  | Some (SMeta _) => (None, s)
  end.

(** [clearExpiredCache()] at time [now]. *)
Definition clearExpiredCache (now : Z) (s : Storage) : Storage :=
  match asArray (getCacheMetadata s) with
  | Some metadata =>
      let expiredKeys :=
        CacheMetadata.key <$>
          filter (λ m, now - CacheMetadata.timestamp m > maxAge) metadata in
      foldl (λ st key, clearCache key st) s expiredKeys
  | None => s
  end.

(** [clearAllCache()] *)
Definition clearAllCache (s : Storage) : Storage :=
  match asArray (getCacheMetadata s) with
  | Some metadata =>
      delete CACHE_METADATA_KEY
        (foldl (λ st item, delete (CacheMetadata.key item) st) s metadata)
  | None => s
  end.

End CacheStorage.

(** ** [src/services/newsApi.ts] *)

Module NewsApi.
Import Types.

(** What [newsApiClient.get] does in one call: it resolves with the
    response body, rejects with an axios error (carrying
    [error.response?.data?.message] when the server sent one), or rejects
    with some other error. *)
Inductive Network :=
| Resolves (data : NewsApiResponse)
| RejectsAxios (message : option string)
| RejectsOther.

(** The environment of one call: the network's answer and the clock
    readings taken by the cache layer, in program order (fresh read, the
    two readings of [cacheArticles], read after a failure). *)
Record Env := {
  network : Network;
  nowRead : Z;
  nowPutEntry : Z;
  nowPutMeta : Z;
  nowFallback : Z;
}.

(** A settled promise: fulfilled with a page or rejected with [new Error(msg)]. *)
Inductive Settled :=
| Fulfilled (data : NewsApiResponse)
| Rejected (message : string).

(** [a || b] on an optional string: [undefined] and the empty string are falsy. *)
Definition orElse (a : option string) (b : string) : string :=
  match a with
  | Some m => if bool_decide (m = "") then b else m
  | None => b
  end.

(** [getTopHeadlines(category, page, useCache)] *)
Definition getTopHeadlines (category : Category) (page : Z) (useCache : bool)
    (env : Env) (s : CacheStorage.Storage) : Settled * CacheStorage.Storage :=
  let cacheKey :=
    CacheStorage.generateCacheKey CacheStorage.category
      (Category_toString category +:+ "_page" +:+ pretty page) in
  let '(fresh, s1) :=
    if useCache && bool_decide (page = 1)
    then CacheStorage.getCachedArticles cacheKey (nowRead env) s
    else (None, s) in
  match fresh with
  | Some cachedData => (Fulfilled cachedData, s1)
  | None =>
      match network env with
      | Resolves data =>
          let s2 :=
            if bool_decide (page = 1)
            then CacheStorage.cacheArticles cacheKey data
                   {| CacheStorage.MetadataArg.key := cacheKey;
                      CacheStorage.MetadataArg.category :=
                        Some (Category_toString category);
                      CacheStorage.MetadataArg.query := None |}
                   (nowPutEntry env) (nowPutMeta env) s1
            else s1 in
          (Fulfilled data, s2)
      | error =>
          let '(stale, s2) :=
            if bool_decide (page = 1)
            then CacheStorage.getCachedArticles cacheKey (nowFallback env) s1
            else (None, s1) in
          match stale with
          | Some cachedData => (Fulfilled cachedData, s2)
          | None =>
              match error with
              | RejectsAxios message =>
                  (Rejected (orElse message
                     "Failed to fetch news. Please check your connection."), s2)
              | _ =>
                  (Rejected "An unexpected error occurred while fetching news.", s2)
              end
          end
      end
  end.

(** [searchNews(query, page, useCache)] *)
Definition searchNews (query : string) (page : Z) (useCache : bool)
    (env : Env) (s : CacheStorage.Storage) : Settled * CacheStorage.Storage :=
  let cacheKey :=
    CacheStorage.generateCacheKey CacheStorage.search
      (query +:+ "_page" +:+ pretty page) in
  let '(fresh, s1) :=
    if useCache && bool_decide (page = 1)
    then CacheStorage.getCachedArticles cacheKey (nowRead env) s
    else (None, s) in
  match fresh with
  | Some cachedData => (Fulfilled cachedData, s1)
  | None =>
      match network env with
      | Resolves data =>
          let s2 :=
            if bool_decide (page = 1)
            then CacheStorage.cacheArticles cacheKey data
                   {| CacheStorage.MetadataArg.key := cacheKey;
                      CacheStorage.MetadataArg.category := None;
                      CacheStorage.MetadataArg.query := Some query |}
                   (nowPutEntry env) (nowPutMeta env) s1
            else s1 in
          (Fulfilled data, s2)
      | error =>
          let '(stale, s2) :=
            if bool_decide (page = 1)
            then CacheStorage.getCachedArticles cacheKey (nowFallback env) s1
            else (None, s1) in
          match stale with
          | Some cachedData => (Fulfilled cachedData, s2)
          | None =>
              match error with
              | RejectsAxios message =>
                  (Rejected (orElse message
                     "Failed to search news. Please check your connection."), s2)
              | _ =>
                  (Rejected "An unexpected error occurred while searching.", s2)
              end
          end
      end
  end.

End NewsApi.

(** ** The JavaScript built-ins the analytics code relies on *)

Module Js.

(** [Array.prototype.sort(compare)]: a stable sort (ECMAScript 2019).  [a]
    moves behind [b] only when [compare a b > 0]; the result of a stable
    sort does not depend on the algorithm, here insertion from the right. *)
Fixpoint sortInsert {A} (compare : A → A → Z) (x : A) (l : list A) : list A :=
  match l with
  | [] => [x]
  | y :: l' =>
      if bool_decide (compare x y > 0)
      then y :: sortInsert compare x l'
      else x :: l
  end.

Definition sort {A} (compare : A → A → Z) (l : list A) : list A :=
  foldr (sortInsert compare) [] l.

(** [new Set(array)] followed by [Array.from]: the distinct elements in
    order of first occurrence. *)
Fixpoint setAdd `{EqDecision A} (seen : list A) (l : list A) : list A :=
  match l with
  | [] => seen
  | x :: l' =>
      if decide (x ∈ seen) then setAdd seen l' else setAdd (seen ++ [x]) l'
  end.

Definition Set_from `{EqDecision A} (l : list A) : list A := setAdd [] l.

(** [array.includes(x)] *)
Definition includes `{EqDecision A} (l : list A) (x : A) : bool :=
  bool_decide (x ∈ l).

(** [array.findIndex(p)]: [None] stands for [-1]. *)
Fixpoint findIndex {A} (p : A → bool) (l : list A) : option nat :=
  match l with
  | [] => None
  | x :: l' => if p x then Some 0%nat else S <$> findIndex p l'
  end.

(** An object literal [{}] used as a counter table: its own properties
    with their values, in order of creation.  Keys are taken not to name a
    member of [Object.prototype] ("constructor", "toString", ...), for which
    [o[k] || 0] would read the inherited member. *)
Definition Counter := list (string * nat).


(** [o[k] = (o[k] || 0) + 1]: an existing property keeps its place, a new
    one is created last. *)
Fixpoint increment (k : string) (o : Counter) : Counter :=
  match o with
  | [] => [(k, 1%nat)]
  | (k', v) :: o' =>
      if bool_decide (k' = k) then (k', S v) :: o' else (k', v) :: increment k o'
  end.

(** Value of a string of decimal digits, most significant first. *)
Fixpoint digits (acc : N) (s : string) : option N :=
  match s with
  | EmptyString => Some acc
  | String c s' =>
      let d := Ascii.N_of_ascii c in
      if bool_decide (48 ≤ d ≤ 57)%N
      then digits (10 * acc + (d - 48))%N s'
      else None
  end.

(** An array index (ECMAScript 6.1.7): a key that is the canonical decimal
    spelling of an integer below [2^32 - 1]. *)
Definition arrayIndex (k : string) : option N :=
  match k with
  | EmptyString => None
  | _ =>
      n ← digits 0%N k;
      if bool_decide (pretty n = k ∧ (n < 4294967295)%N) then Some n else None
  end.

(** [Object.entries(o)] (OrdinaryOwnPropertyKeys): the properties whose key
    is an array index first, by ascending index, then the others in order
    of creation. *)
Definition entries (o : Counter) : list (string * nat) :=
  let indexed := omap (λ kv, (λ n, (n, kv)) <$> arrayIndex kv.1) o in
  let named := filter (λ kv, arrayIndex kv.1 = None) o in
  (snd <$> sort (λ a b, Z.of_N a.1 - Z.of_N b.1) indexed) ++ named.

End Js.

(** ** [src/services/readingHistoryService.ts] *)

Module ReadingHistoryService.
Import Types.

Definition HISTORY_STORAGE_KEY : string := "@reading_history".
Definition MAX_HISTORY_ITEMS : nat := 100.

Record ReadingHistoryItem := {
  article : Article;
  readAt : Z;
  readingTime : Z;
  category : string;
  source : string;
}.

(** A calendar day of the local calendar.  The source names it by the
    string [YYYY-MM-DD]; the embedding names it by its ordinal, the number
    of days since 1970-01-01.  The two are in one-to-one correspondence,
    and for the years 1000 to 9999 the order of the strings is the order of
    the ordinals. *)
Definition DateKey := Z.

Record ReadingStats := {
  totalArticlesRead : nat;
  totalReadingTime : Q;
  averageReadingTime : Q;
  currentStreak : nat;
  longestStreak : nat;
  articlesReadToday : nat;
  articlesReadThisWeek : nat;
  articlesReadThisMonth : nat;
  favoriteCategory : string;
  favoriteSource : string;
  categoriesBreakdown : Js.Counter;
  sourcesBreakdown : Js.Counter;
  readingByDay : gmap DateKey nat;
  readingByHour : gmap Z nat;
}.

(** The history service reads and writes one key of [AsyncStorage]. *)
Abbreviation Storage := (gmap string (list ReadingHistoryItem)).

(** [getHistory()] *)
Definition getHistory (s : Storage) : list ReadingHistoryItem :=
  match s !! HISTORY_STORAGE_KEY with
  | Some data => data
  | None => []
  end.

(** [addToHistory(article, readingTime, category)] at time [now]. *)
Definition addToHistory (article0 : Article) (readingTime0 : Z)
    (category0 : string) (now : Z) (s : Storage) : Storage :=
  let history := getHistory s in
  let existingIndex :=
    Js.findIndex (λ item, bool_decide (url (article item) = url article0)) history in
  let historyItem :=
    {| article := article0;
       readAt := now;
       readingTime := readingTime0;
       category := category0;
       source :=
         let n := name (Types.source article0) in
         if bool_decide (n = "") then "Unknown" else n |} in
  let history1 :=
    match existingIndex with
    | Some i => delete i history
    | None => history
    end in
  let history2 := historyItem :: history1 in
  let history3 :=
    if bool_decide (MAX_HISTORY_ITEMS < length history2)%nat
    then take MAX_HISTORY_ITEMS history2
    else history2 in
  <[HISTORY_STORAGE_KEY := history3]> s.

(** [getRecentHistory(limit)] *)
Definition getRecentHistory (limit : nat) (s : Storage) : list ReadingHistoryItem :=
  take limit (getHistory s).

(** [clearHistory()] *)
Definition clearHistory (s : Storage) : Storage :=
  delete HISTORY_STORAGE_KEY s.

(** [removeFromHistory(articleUrl)] *)
Definition removeFromHistory (articleUrl : string) (s : Storage) : Storage :=
  let history := getHistory s in
  let filtered := filter (λ item, url (article item) ≠ articleUrl) history in
  <[HISTORY_STORAGE_KEY := filtered]> s.

(** [hasBeenRead(articleUrl)] *)
Definition hasBeenRead (articleUrl : string) (s : Storage) : bool :=
  existsb (λ item, bool_decide (url (article item) = articleUrl)) (getHistory s).

(** [getReadingTime(articleUrl)] *)
Definition getReadingTime (articleUrl : string) (s : Storage) : Z :=
  match List.find (λ item, bool_decide (url (article item) = articleUrl)) (getHistory s) with
  | Some item => readingTime item
  | None => 0
  end.

Definition oneDayMs : Z := 24 * 60 * 60 * 1000.

Section LocalTime.
(** Local time is UTC shifted by [tz] milliseconds, the same shift at
    every instant: every local day lasts 24 hours. *)
Variable tz : Z.

(** [getDateKey(new Date(t))]: the local calendar day of instant [t]. *)
Definition getDateKey (t : Z) : DateKey := (t + tz) `div` oneDayMs.

(** [new Date(t).getHours()] *)
Definition getHours (t : Z) : Z := ((t + tz) `mod` oneDayMs) `div` (60 * 60 * 1000).

(** [new Date(key).getTime()]: a date-only string is read as midnight UTC. *)
Definition Date_getTime (key : DateKey) : Z := key * oneDayMs.

Record Streaks := { current : nat; longest : nat }.

(** The [for] loop of the current streak: [n] iterations are left,
    [checkDate] and [currentStreak] are the loop's variables. *)
Fixpoint walkBack (sortedDays : list DateKey) (n : nat) (checkDate : Z)
    (currentStreak0 : nat) : nat :=
  match n with
  | O => currentStreak0
  | S n' =>
      let checkDate' := checkDate - oneDayMs in
      let checkKey := getDateKey checkDate' in
      if Js.includes sortedDays checkKey
      then walkBack sortedDays n' checkDate' (S currentStreak0)
      else currentStreak0
  end.

(** The [for] loop of the longest streak over the pairs
    [sortedDays[i]], [sortedDays[i + 1]]; returns [longestStreak] and
    [tempStreak] as the loop leaves them. *)
Fixpoint scanPairs (sortedDays : list DateKey) (longestStreak0 tempStreak : nat)
    : nat * nat :=
  match sortedDays with
  | [] => (longestStreak0, tempStreak)
  | date1 :: rest =>
      match rest with
      | [] => (longestStreak0, tempStreak)
      | date2 :: _ =>
          let dayDiff := (Date_getTime date1 - Date_getTime date2) `div` oneDayMs in
          if bool_decide (dayDiff = 1)
          then scanPairs rest longestStreak0 (S tempStreak)
          else scanPairs rest (Nat.max longestStreak0 tempStreak) 1%nat
      end
  end.

(** [calculateStreaks(history)], every [new Date()] and [Date.now()] of
    the call reading the same instant [now]. *)
Definition calculateStreaks (history : list ReadingHistoryItem) (now : Z) : Streaks :=
  if bool_decide (length history = 0%nat)
  then {| current := 0; longest := 0 |}
  else
    let readingDays := Js.Set_from ((λ item, getDateKey (readAt item)) <$> history) in
    let sortedDays := reverse (Js.sort (λ a b : DateKey, a - b) readingDays) in
    let today := getDateKey now in
    let yesterday := getDateKey (now - oneDayMs) in
    let currentStreak0 :=
      if Js.includes sortedDays today || Js.includes sortedDays yesterday
      then
        let checkDate :=
          if Js.includes sortedDays today then now else now - oneDayMs in
        walkBack sortedDays (length sortedDays - 1) checkDate 1%nat
      else 0%nat in
    let '(longestStreak0, tempStreak) := scanPairs sortedDays 0%nat 1%nat in
    {| current := currentStreak0; longest := Nat.max longestStreak0 tempStreak |}.

(** [getReadingByDay(history)] *)
Definition getReadingByDay (history : list ReadingHistoryItem) (now : Z)
    : gmap DateKey nat :=
  let sevenDaysAgo := now - 7 * oneDayMs in
  let counted :=
    foldl (λ (o : gmap DateKey nat) item,
             let dateKey := getDateKey (readAt item) in
             <[dateKey := S (default 0%nat (o !! dateKey))]> o)
          ∅ (filter (λ item, readAt item > sevenDaysAgo) history) in
  foldl (λ (o : gmap DateKey nat) (i : Z),
           let key := getDateKey (now - i * oneDayMs) in
           match o !! key with
           | Some (S _) => o
           | _ => <[key := 0%nat]> o
           end)
        counted [0; 1; 2; 3; 4; 5; 6].

(** [getReadingByHour(history)] *)
Definition getReadingByHour (history : list ReadingHistoryItem) : gmap Z nat :=
  let initial :=
    foldl (λ (o : gmap Z nat) (i : nat), <[Z.of_nat i := 0%nat]> o) ∅ (seq 0 24) in
  foldl (λ (o : gmap Z nat) item,
           let hour := getHours (readAt item) in
           <[hour := S (default 0%nat (o !! hour))]> o)
        initial history.

(** [getEmptyStats()] *)
Definition getEmptyStats : ReadingStats :=
  {| totalArticlesRead := 0;
     totalReadingTime := 0;
     averageReadingTime := 0;
     currentStreak := 0;
     longestStreak := 0;
     articlesReadToday := 0;
     articlesReadThisWeek := 0;
     articlesReadThisMonth := 0;
     favoriteCategory := "None";
     favoriteSource := "None";
     categoriesBreakdown := [];
     sourcesBreakdown := [];
     readingByDay := ∅;
     readingByHour := ∅ |}.

(** [Object.entries(o).sort(([, a], [, b]) => b - a)[0]?.[0] || fallback] *)
Definition favorite (o : Js.Counter) (fallback : string) : string :=
  match Js.sort (λ x y, Z.of_nat y.2 - Z.of_nat x.2) (Js.entries o) with
  | (k, _) :: _ => if bool_decide (k = "") then fallback else k
  | [] => fallback
  end.

(** The two [forEach] loops of [getStats] that fill the counter tables. *)
Definition countBy (tag : ReadingHistoryItem → string) (fallback : string)
    (history : list ReadingHistoryItem) : Js.Counter :=
  foldl (λ o item,
           let k := if bool_decide (tag item = "") then fallback else tag item in
           Js.increment k o)
        [] history.

(** [getStats()] at time [now]. *)
Definition getStats (s : Storage) (now : Z) : ReadingStats :=
  let history := getHistory s in
  if bool_decide (length history = 0%nat)
  then getEmptyStats
  else
    let oneWeekMs := 7 * oneDayMs in
    let oneMonthMs := 30 * oneDayMs in
    let totalArticlesRead0 := length history in
    let totalReadingTime0 :=
      Qdiv (inject_Z (foldl (λ sum item, sum + readingTime item) 0 history))
           (inject_Z 60) in
    let averageReadingTime0 :=
      Qdiv totalReadingTime0 (inject_Z (Z.of_nat totalArticlesRead0)) in
    let articlesReadToday0 :=
      length (filter (λ item, now - readAt item < oneDayMs) history) in
    let articlesReadThisWeek0 :=
      length (filter (λ item, now - readAt item < oneWeekMs) history) in
    let articlesReadThisMonth0 :=
      length (filter (λ item, now - readAt item < oneMonthMs) history) in
    let streaks := calculateStreaks history now in
    let categoriesBreakdown0 := countBy category "general" history in
    let sourcesBreakdown0 := countBy source "Unknown" history in
    let favoriteCategory0 := favorite categoriesBreakdown0 "general" in
    let favoriteSource0 := favorite sourcesBreakdown0 "Unknown" in
    {| totalArticlesRead := totalArticlesRead0;
       totalReadingTime := totalReadingTime0;
       averageReadingTime := averageReadingTime0;
       currentStreak := current streaks;
       longestStreak := longest streaks;
       articlesReadToday := articlesReadToday0;
       articlesReadThisWeek := articlesReadThisWeek0;
       articlesReadThisMonth := articlesReadThisMonth0;
       favoriteCategory := favoriteCategory0;
       favoriteSource := favoriteSource0;
       categoriesBreakdown := categoriesBreakdown0;
       sourcesBreakdown := sourcesBreakdown0;
       readingByDay := getReadingByDay history now;
       readingByHour := getReadingByHour history |}.

End LocalTime.

End ReadingHistoryService.

(** ** Vocabulary of the specification *)

Module CacheSpec.
Import CacheStorage.

(** The rows of the cache index, none when the index is unreadable. *)
Definition indexRows (s : Storage) : list CacheMetadata.t :=
  default [] (asArray (getCacheMetadata s)).

Definition indexKeys (s : Storage) : list string :=
  CacheMetadata.key <$> indexRows s.

(** Key [k] holds a readable cache entry. *)
Definition hasEntry (s : Storage) (k : string) : Prop :=
  ∃ e, s !! k = Some (SEntry e).

(** The index mirrors the live entries: it is readable, no key has two
    rows, and a key has a row exactly when it holds an entry. *)
Definition indexMirrors (s : Storage) : Prop :=
  (∃ rows, getCacheMetadata s = SMeta rows) ∧
  NoDup (indexKeys s) ∧
  ∀ k, k ∈ indexKeys s ↔ hasEntry s k.

(** The calls of the index-consistency property. *)
Inductive Call :=
| Put (key : string) (data : Types.NewsApiResponse) (metadata : MetadataArg.t)
      (now1 now2 : Z)
| Clear (key : string)
| ClearExpired (now : Z).

Definition run (c : Call) (s : Storage) : Storage :=
  match c with
  | Put key data metadata now1 now2 => cacheArticles key data metadata now1 now2 s
  | Clear key => clearCache key s
  | ClearExpired now => clearExpiredCache now s
  end.

Definition runAll (cs : list Call) (s : Storage) : Storage :=
  foldl (λ st c, run c st) s cs.

(** A call as the fetch layer issues it: the key is a cache key, not the
    key of the index itself, and the metadata row of a [Put] names the key
    the entry is written under. *)
Definition wellKeyed (c : Call) : Prop :=
  match c with
  | Put key _ metadata _ _ =>
      key ≠ CACHE_METADATA_KEY ∧ MetadataArg.key metadata = key
  | Clear key => key ≠ CACHE_METADATA_KEY
  | ClearExpired _ => True
  end.

End CacheSpec.

Module NewsApiSpec.
Import NewsApi.

(** The outcome of a call that only talks to the network: the page when
    the request resolves, otherwise the error text of the [catch] block. *)
Definition live (axiosDefault otherMessage : string) (n : Network) : Settled :=
  match n with
  | Resolves data => Fulfilled data
  | RejectsAxios message => Rejected (orElse message axiosDefault)
  | RejectsOther => Rejected otherMessage
  end.

Definition headlinesKey (category : Types.Category) (page : Z) : string :=
  CacheStorage.generateCacheKey CacheStorage.category
    (Types.Category_toString category +:+ "_page" +:+ pretty page).

Definition searchKey (query : string) (page : Z) : string :=
  CacheStorage.generateCacheKey CacheStorage.search
    (query +:+ "_page" +:+ pretty page).

Definition failed (n : Network) : Prop :=
  match n with Resolves _ => False | _ => True end.

(** The body the two functions of [newsApi] share, with what differs taken
    as arguments: the cache key, the metadata literal and the two error
    texts. *)
Definition fetchPage (cacheKey : string) (meta : CacheStorage.MetadataArg.t)
    (axiosDefault otherMessage : string) (page : Z) (useCache : bool)
    (env : Env) (s : CacheStorage.Storage) : Settled * CacheStorage.Storage :=
  let '(fresh, s1) :=
    if useCache && bool_decide (page = 1)
    then CacheStorage.getCachedArticles cacheKey (nowRead env) s
    else (None, s) in
  match fresh with
  | Some cachedData => (Fulfilled cachedData, s1)
  | None =>
      match network env with
      | Resolves data =>
          let s2 :=
            if bool_decide (page = 1)
            then CacheStorage.cacheArticles cacheKey data meta
                   (nowPutEntry env) (nowPutMeta env) s1
            else s1 in
          (Fulfilled data, s2)
      | error =>
          let '(stale, s2) :=
            if bool_decide (page = 1)
            then CacheStorage.getCachedArticles cacheKey (nowFallback env) s1
            else (None, s1) in
          match stale with
          | Some cachedData => (Fulfilled cachedData, s2)
          | None =>
              match error with
              | RejectsAxios message => (Rejected (orElse message axiosDefault), s2)
              | _ => (Rejected otherMessage, s2)
              end
          end
      end
  end.

Definition headlinesMeta (category : Types.Category) (page : Z)
    : CacheStorage.MetadataArg.t :=
  {| CacheStorage.MetadataArg.key := headlinesKey category page;
     CacheStorage.MetadataArg.category := Some (Types.Category_toString category);
     CacheStorage.MetadataArg.query := None |}.

Definition searchMeta (query : string) (page : Z) : CacheStorage.MetadataArg.t :=
  {| CacheStorage.MetadataArg.key := searchKey query page;
     CacheStorage.MetadataArg.category := None;
     CacheStorage.MetadataArg.query := Some query |}.

End NewsApiSpec.

Module HistorySpec.
Import Types ReadingHistoryService.

(** The entries of a log for one article URL. *)
Definition entriesFor (u : string) (history : list ReadingHistoryItem)
    : list ReadingHistoryItem :=
  filter (λ item, url (article item) = u) history.

(** The log without its first (most recent) entry for URL [u]. *)
Fixpoint withoutFirst (u : string) (history : list ReadingHistoryItem)
    : list ReadingHistoryItem :=
  match history with
  | [] => []
  | item :: rest =>
      if bool_decide (url (article item) = u) then rest
      else item :: withoutFirst u rest
  end.

(** The entry [addToHistory] builds. *)
Definition entry (a : Article) (seconds : Z) (cat : string) (now : Z)
    : ReadingHistoryItem :=
  {| article := a;
     readAt := now;
     readingTime := seconds;
     category := cat;
     source := if bool_decide (name (Types.source a) = "") then "Unknown"
               else name (Types.source a) |}.

(** No URL occurs twice in the log. *)
Definition uniqueUrls (history : list ReadingHistoryItem) : Prop :=
  NoDup ((λ item, url (article item)) <$> history).

(** The writes of the history service. *)
Inductive Call :=
| Record_ (a : Article) (seconds : Z) (cat : string) (now : Z)
| Remove (u : string)
| Clear.

Definition run (c : Call) (s : Storage) : Storage :=
  match c with
  | Record_ a seconds cat now => addToHistory a seconds cat now s
  | Remove u => removeFromHistory u s
  | Clear => clearHistory s
  end.

Definition runAll (cs : list Call) (s : Storage) : Storage :=
  foldl (λ st c, run c st) s cs.

End HistorySpec.

Module StatsSpec.
Import Types ReadingHistoryService.

(** The local calendar days of the events of a log, in log order. *)
Definition daysOf (tz : Z) (history : list ReadingHistoryItem) : list DateKey :=
  (λ item, getDateKey tz (readAt item)) <$> history.


(** The array [sortedDays] of [calculateStreaks]. *)
Definition sortedDays (tz : Z) (history : list ReadingHistoryItem) : list DateKey :=
  reverse (Js.sort (λ a b : DateKey, a - b) (Js.Set_from (daysOf tz history))).







(** The number of events of a log that satisfy [P]. *)
Definition countWhere (P : ReadingHistoryItem → Prop) `{!∀ item, Decision (P item)}
    (history : list ReadingHistoryItem) : nat :=
  length (filter P history).


End StatsSpec.

(** ** The article screen ([saveReadingHistory]) *)

Module ArticleScreen.
Import Types.


End ArticleScreen.

(** ** The home screen ([HomeScreen]) *)

Module HomeScreen.
Import Types.

(** The [useState] cells of the component that its loaders and handlers
    read or write. *)
Record State := {
  selectedCategory : Category;
  articles : list Article;
  loading : bool;
  refreshing : bool;
  error : option string;
  searchQuery : string;
  isSearchMode : bool;
  currentPage : Z;
  loadingMore : bool;
  hasMore : bool;
  totalResults : Z;
}.

(** The state of the first render. *)
Definition initial : State :=
  {| selectedCategory := general; articles := []; loading := true;
     refreshing := false; error := None; searchQuery := ""; isSearchMode := false;
     currentPage := 1; loadingMore := false; hasMore := true; totalResults := 0 |}.

(** The setters.  [setArticles] takes the updater function, as in
    [setArticles(prev => ...)]; [setArticles(v)] is [setArticles (λ _, v)]. *)
Definition setArticles (f : list Article → list Article) (st : State) : State :=
  {| selectedCategory := selectedCategory st; articles := f (articles st);
     loading := loading st; refreshing := refreshing st; error := error st;
     searchQuery := searchQuery st; isSearchMode := isSearchMode st;
     currentPage := currentPage st; loadingMore := loadingMore st;
     hasMore := hasMore st; totalResults := totalResults st |}.

Definition setLoading (v : bool) (st : State) : State :=
  {| selectedCategory := selectedCategory st; articles := articles st;
     loading := v; refreshing := refreshing st; error := error st;
     searchQuery := searchQuery st; isSearchMode := isSearchMode st;
     currentPage := currentPage st; loadingMore := loadingMore st;
     hasMore := hasMore st; totalResults := totalResults st |}.

Definition setRefreshing (v : bool) (st : State) : State :=
  {| selectedCategory := selectedCategory st; articles := articles st;
     loading := loading st; refreshing := v; error := error st;
     searchQuery := searchQuery st; isSearchMode := isSearchMode st;
     currentPage := currentPage st; loadingMore := loadingMore st;
     hasMore := hasMore st; totalResults := totalResults st |}.

Definition setError (v : option string) (st : State) : State :=
  {| selectedCategory := selectedCategory st; articles := articles st;
     loading := loading st; refreshing := refreshing st; error := v;
     searchQuery := searchQuery st; isSearchMode := isSearchMode st;
     currentPage := currentPage st; loadingMore := loadingMore st;
     hasMore := hasMore st; totalResults := totalResults st |}.

Definition setSearchQuery (v : string) (st : State) : State :=
  {| selectedCategory := selectedCategory st; articles := articles st;
     loading := loading st; refreshing := refreshing st; error := error st;
     searchQuery := v; isSearchMode := isSearchMode st;
     currentPage := currentPage st; loadingMore := loadingMore st;
     hasMore := hasMore st; totalResults := totalResults st |}.

Definition setIsSearchMode (v : bool) (st : State) : State :=
  {| selectedCategory := selectedCategory st; articles := articles st;
     loading := loading st; refreshing := refreshing st; error := error st;
     searchQuery := searchQuery st; isSearchMode := v;
     currentPage := currentPage st; loadingMore := loadingMore st;
     hasMore := hasMore st; totalResults := totalResults st |}.

Definition setCurrentPage (v : Z) (st : State) : State :=
  {| selectedCategory := selectedCategory st; articles := articles st;
     loading := loading st; refreshing := refreshing st; error := error st;
     searchQuery := searchQuery st; isSearchMode := isSearchMode st;
     currentPage := v; loadingMore := loadingMore st;
     hasMore := hasMore st; totalResults := totalResults st |}.

Definition setLoadingMore (v : bool) (st : State) : State :=
  {| selectedCategory := selectedCategory st; articles := articles st;
     loading := loading st; refreshing := refreshing st; error := error st;
     searchQuery := searchQuery st; isSearchMode := isSearchMode st;
     currentPage := currentPage st; loadingMore := v;
     hasMore := hasMore st; totalResults := totalResults st |}.

Definition setHasMore (v : bool) (st : State) : State :=
  {| selectedCategory := selectedCategory st; articles := articles st;
     loading := loading st; refreshing := refreshing st; error := error st;
     searchQuery := searchQuery st; isSearchMode := isSearchMode st;
     currentPage := currentPage st; loadingMore := loadingMore st;
     hasMore := v; totalResults := totalResults st |}.

Definition setTotalResults (v : Z) (st : State) : State :=
  {| selectedCategory := selectedCategory st; articles := articles st;
     loading := loading st; refreshing := refreshing st; error := error st;
     searchQuery := searchQuery st; isSearchMode := isSearchMode st;
     currentPage := currentPage st; loadingMore := loadingMore st;
     hasMore := hasMore st; totalResults := v |}.

(** [Math.ceil(n / 20)] for an integer [n]. *)
Definition ceilDiv20 (n : Z) : Z := - ((- n) `div` 20).

(** Truthiness of a string and of [string | null]. *)
Definition truthy (v : string) : bool := negb (bool_decide (v = "")).

Definition truthyError (v : option string) : bool :=
  match v with
  | Some m => truthy m
  | None => false
  end.

(** The screen together with the storage its requests go through. *)
Definition World : Type := State * CacheStorage.Storage.

(** [fetchArticles(category, isRefreshing, page)]: every error caught here
    is the [Error] thrown by [getTopHeadlines], so the [catch] block takes
    its message. *)
Definition fetchArticles (category : Category) (isRefreshing : bool) (page : Z)
    (env : NewsApi.Env) (w : World) : World :=
  let '(st, s) := w in
  let st := if negb isRefreshing then setLoading true st else st in
  let st := setError None st in
  let '(settled, s) := NewsApi.getTopHeadlines category page true env s in
  let st :=
    match settled with
    | NewsApi.Fulfilled response =>
        let st :=
          if bool_decide (page = 1)
          then setArticles (λ _, Types.articles response) st
          else setArticles (λ prev, prev ++ Types.articles response) st in
        let st := setTotalResults (Types.totalResults response) st in
        let st := setCurrentPage page st in
        let totalPages := ceilDiv20 (Types.totalResults response) in
        setHasMore (bool_decide (page < totalPages)
                    && bool_decide (0 < length (Types.articles response))%nat) st
    | NewsApi.Rejected message =>
        let st := setError (Some message) st in
        if bool_decide (page = 1) then setArticles (λ _, []) st else st
    end in
  let st := setLoading false st in
  let st := setRefreshing false st in
  let st := setLoadingMore false st in
  (st, s).

(** [searchArticles(query, isRefreshing, page)] *)
Definition searchArticles (query : string) (isRefreshing : bool) (page : Z)
    (env : NewsApi.Env) (w : World) : World :=
  let '(st, s) := w in
  let st := if negb isRefreshing then setLoading true st else st in
  let st := setError None st in
  let '(settled, s) := NewsApi.searchNews query page true env s in
  let st :=
    match settled with
    | NewsApi.Fulfilled response =>
        let st :=
          if bool_decide (page = 1)
          then setArticles (λ _, Types.articles response) st
          else setArticles (λ prev, prev ++ Types.articles response) st in
        let st := setTotalResults (Types.totalResults response) st in
        let st := setCurrentPage page st in
        let totalPages := ceilDiv20 (Types.totalResults response) in
        setHasMore (bool_decide (page < totalPages)
                    && bool_decide (0 < length (Types.articles response))%nat) st
    | NewsApi.Rejected message =>
        let st := setError (Some message) st in
        if bool_decide (page = 1) then setArticles (λ _, []) st else st
    end in
  let st := setLoading false st in
  let st := setRefreshing false st in
  let st := setLoadingMore false st in
  (st, s).

(** [handleSearch(query)] *)
Definition handleSearch (query : string) (env : NewsApi.Env) (w : World) : World :=
  let '(st, s) := w in
  let st := setSearchQuery query st in
  let st := setIsSearchMode true st in
  let st := setCurrentPage 1 st in
  let st := setHasMore true st in
  searchArticles query false 1 env (st, s).

(** [handleRefresh()]: the handler reads [isSearchMode], [searchQuery] and
    [selectedCategory] of the render it belongs to. *)
Definition handleRefresh (env : NewsApi.Env) (w : World) : World :=
  let '(st0, s) := w in
  let st := setRefreshing true st0 in
  let st := setCurrentPage 1 st in
  let st := setHasMore true st in
  if isSearchMode st0 && truthy (searchQuery st0)
  then searchArticles (searchQuery st0) true 1 env (st, s)
  else fetchArticles (selectedCategory st0) true 1 env (st, s).

(** [handleRetry()] *)
Definition handleRetry (env : NewsApi.Env) (w : World) : World :=
  let '(st0, s) := w in
  let st := setCurrentPage 1 st0 in
  let st := setHasMore true st in
  if isSearchMode st0 && truthy (searchQuery st0)
  then searchArticles (searchQuery st0) false 1 env (st, s)
  else fetchArticles (selectedCategory st0) false 1 env (st, s).

(** [handleLoadMore()] *)
Definition handleLoadMore (env : NewsApi.Env) (w : World) : World :=
  let '(st0, s) := w in
  if negb (loadingMore st0) && hasMore st0 && negb (loading st0)
     && negb (truthyError (error st0))
  then
    let st := setLoadingMore true st0 in
    let nextPage := currentPage st0 + 1 in
    if isSearchMode st0 && truthy (searchQuery st0)
    then searchArticles (searchQuery st0) false nextPage env (st, s)
    else fetchArticles (selectedCategory st0) false nextPage env (st, s)
  else w.

End HomeScreen.

Module HomeScreenSpec.
Import HomeScreen.

(** The cache key of page [page] of the feed on display. *)
Definition feedKey (st : State) (page : Z) : string :=
  if isSearchMode st && truthy (searchQuery st)
  then NewsApiSpec.searchKey (searchQuery st) page
  else NewsApiSpec.headlinesKey (selectedCategory st) page.

(** The guard of [handleLoadMore] lets the request through. *)
Definition canLoadMore (st : State) : Prop :=
  loadingMore st = false ∧ hasMore st = true ∧ loading st = false ∧
  truthyError (error st) = false.

(** No request is pending, the page number is a page number, and an error
    on display has a text. *)
Definition settled (st : State) : Prop :=
  loading st = false ∧ refreshing st = false ∧ loadingMore st = false ∧
  1 ≤ currentPage st ∧
  (∀ m, error st = Some m → m ≠ "").

(** The invariant of the screen: it is settled, and a further page can be
    asked for only when the list is not empty and the last reply reported
    more than the pages loaded hold. *)
Definition steady (st : State) : Prop :=
  settled st ∧
  (canLoadMore st → 20 * currentPage st < totalResults st ∧ articles st ≠ []).

(** What the user does on the screen, each with the environment of the
    request it starts; a handler runs to its end before the next event. *)
Inductive Event :=
| Search (query : string)
| Refresh
| Retry
| LoadMore.

Definition run (e : Event) (env : NewsApi.Env) (w : World) : World :=
  match e with
  | Search query => handleSearch query env w
  | Refresh => handleRefresh env w
  | Retry => handleRetry env w
  | LoadMore => handleLoadMore env w
  end.

Definition runAll (es : list (Event * NewsApi.Env)) (w : World) : World :=
  foldl (λ w e, run e.1 e.2 w) w es.

(** The mount effect: [fetchArticles(selectedCategory)] on the first render. *)
Definition mount (env : NewsApi.Env) (s : CacheStorage.Storage) : World :=
  fetchArticles (selectedCategory initial) false 1 env (initial, s).

(** The request a handler sends for page [page] of the feed on display. *)
Definition request (st : State) (page : Z) (env : NewsApi.Env)
    (s : CacheStorage.Storage) : NewsApi.Settled * CacheStorage.Storage :=
  if isSearchMode st && truthy (searchQuery st)
  then NewsApi.searchNews (searchQuery st) page true env s
  else NewsApi.getTopHeadlines (selectedCategory st) page true env s.

(** The screen once a loader has finished, as a function of the screen
    before it and of the settled request. *)
Definition display (page : Z) (outcome : NewsApi.Settled) (st : State) : State :=
  {| selectedCategory := selectedCategory st;
     articles :=
       match outcome with
       | NewsApi.Fulfilled response =>
           if bool_decide (page = 1) then Types.articles response
           else articles st ++ Types.articles response
       | NewsApi.Rejected _ => if bool_decide (page = 1) then [] else articles st
       end;
     loading := false;
     refreshing := false;
     error :=
       match outcome with
       | NewsApi.Fulfilled _ => None
       | NewsApi.Rejected message => Some message
       end;
     searchQuery := searchQuery st;
     isSearchMode := isSearchMode st;
     currentPage :=
       match outcome with
       | NewsApi.Fulfilled _ => page
       | NewsApi.Rejected _ => currentPage st
       end;
     loadingMore := false;
     hasMore :=
       match outcome with
       | NewsApi.Fulfilled response =>
           bool_decide (page < ceilDiv20 (Types.totalResults response))
           && bool_decide (0 < length (Types.articles response))%nat
       | NewsApi.Rejected _ => hasMore st
       end;
     totalResults :=
       match outcome with
       | NewsApi.Fulfilled response => Types.totalResults response
       | NewsApi.Rejected _ => totalResults st
       end |}.

End HomeScreenSpec.

(** Concrete data for the examples. *)

Module Sample.
Import Types.

Definition page : NewsApiResponse :=
  {| status := "ok"; totalResults := 1; articles := [] |}.

Definition newerPage : NewsApiResponse :=
  {| status := "ok"; totalResults := 2; articles := [] |}.

Definition headlinesKey : string :=
  CacheStorage.generateCacheKey CacheStorage.category "general_page1".

Definition searchKey : string :=
  CacheStorage.generateCacheKey CacheStorage.search "climate_page1".

Definition headlinesMeta : CacheStorage.MetadataArg.t :=
  {| CacheStorage.MetadataArg.key := headlinesKey;
     CacheStorage.MetadataArg.category := Some "general";
     CacheStorage.MetadataArg.query := None |}.

Definition searchMeta : CacheStorage.MetadataArg.t :=
  {| CacheStorage.MetadataArg.key := searchKey;
     CacheStorage.MetadataArg.category := None;
     CacheStorage.MetadataArg.query := Some "climate" |}.

(** Storage after page 1 of the general headlines was cached at time 0. *)
Definition cachedAtZero : CacheStorage.Storage :=
  CacheStorage.cacheArticles headlinesKey page headlinesMeta 0 0 ∅.

(** Storage after page 1 of the search for "climate" was cached at time 0. *)
Definition searchCachedAtZero : CacheStorage.Storage :=
  CacheStorage.cacheArticles searchKey page searchMeta 0 0 ∅.

(** No connection, one millisecond after the 24 hours have passed. *)
Definition offlineAfterExpiry : NewsApi.Env :=
  {| NewsApi.network := NewsApi.RejectsAxios None;
     NewsApi.nowRead := 86400001;
     NewsApi.nowPutEntry := 86400001;
     NewsApi.nowPutMeta := 86400001;
     NewsApi.nowFallback := 86400001 |}.

(** No connection, within the 24 hours. *)
Definition offlineBeforeExpiry : NewsApi.Env :=
  {| NewsApi.network := NewsApi.RejectsAxios None;
     NewsApi.nowRead := 86400000;
     NewsApi.nowPutEntry := 86400000;
     NewsApi.nowPutMeta := 86400000;
     NewsApi.nowFallback := 86400000 |}.

(** A short life of the cache: a write, a sweep after expiry, a clear. *)
Definition calls : list CacheSpec.Call :=
  [ CacheSpec.Put headlinesKey page headlinesMeta 0 5;
    CacheSpec.Put searchKey page searchMeta 90000000 90000000;
    CacheSpec.ClearExpired 86400006;
    CacheSpec.Put headlinesKey newerPage headlinesMeta 90000001 90000002;
    CacheSpec.Clear searchKey ].

Definition article (url0 name0 : string) : Article :=
  {| source := {| id := None; name := name0 |};
     author := None;
     title := "title";
     description := None;
     url := url0;
     urlToImage := None;
     publishedAt := "2024-01-01T00:00:00Z";
     content := None |}.

Definition story : Article := article "https://example.org/story" "BBC News".

(** A reply with one article out of 45. *)
Definition storyPage : NewsApiResponse :=
  {| status := "ok"; totalResults := 45; articles := [story] |}.

(** The network answers with [storyPage]. *)
Definition onlineSecondPage : NewsApi.Env :=
  {| NewsApi.network := NewsApi.Resolves storyPage;
     NewsApi.nowRead := 0;
     NewsApi.nowPutEntry := 0;
     NewsApi.nowPutMeta := 0;
     NewsApi.nowFallback := 0 |}.

(** The home screen after the first page of the general headlines came in. *)
Definition firstPageShown : HomeScreen.State :=
  {| HomeScreen.selectedCategory := general;
     HomeScreen.articles := [story];
     HomeScreen.loading := false;
     HomeScreen.refreshing := false;
     HomeScreen.error := None;
     HomeScreen.searchQuery := "";
     HomeScreen.isSearchMode := false;
     HomeScreen.currentPage := 1;
     HomeScreen.loadingMore := false;
     HomeScreen.hasMore := true;
     HomeScreen.totalResults := 45 |}.

(** An event of the history, read at [t], with source name [name0]. *)
Definition event (url0 name0 cat : string) (t : Z)
    : ReadingHistoryService.ReadingHistoryItem :=
  HistorySpec.entry (article url0 name0) 60 cat t.

(** Noon UTC on day 19700 of the epoch, and events at noon of the days before. *)
Definition noon (day : Z) : Z := day * 86400000 + 43200000.

Definition threeDays : list ReadingHistoryService.ReadingHistoryItem :=
  [ event "u0" "BBC News" "science" (noon 19700);
    event "u1" "BBC News" "science" (noon 19699);
    event "u2" "Wired" "technology" (noon 19698);
    event "u3" "Wired" "technology" (noon 19696) ].

Definition readLog : ReadingHistoryService.Storage :=
  {[ ReadingHistoryService.HISTORY_STORAGE_KEY := threeDays ]}.


End Sample.

(** * Properties *)

(** ** Cache layer *)

Section CacheFacts.
Import CacheStorage CacheSpec.
Implicit Types (s : Storage) (key k : string).

Lemma maxAge_is_24h : maxAge = 86400000.
Proof. reflexivity. Qed.

Lemma generateCacheKey_not_metadata type value :
  generateCacheKey type value ≠ CACHE_METADATA_KEY.
Proof. destruct type; discriminate. Qed.

Lemma getCacheMetadata_insert_ne key v s :
  key ≠ CACHE_METADATA_KEY →
  getCacheMetadata (<[key := v]> s) = getCacheMetadata s.
Proof. intros Hne. unfold getCacheMetadata. by rewrite lookup_insert_ne. Qed.

Lemma getCacheMetadata_delete_ne key s :
  key ≠ CACHE_METADATA_KEY →
  getCacheMetadata (delete key s) = getCacheMetadata s.
Proof. intros Hne. unfold getCacheMetadata. by rewrite lookup_delete_ne. Qed.

Lemma getCacheMetadata_insert_index v s :
  getCacheMetadata (<[CACHE_METADATA_KEY := v]> s) = v.
Proof. unfold getCacheMetadata. by rewrite lookup_insert_eq. Qed.

Lemma keys_filter_ne key (rows : list CacheMetadata.t) :
  CacheMetadata.key <$> filter (λ m, CacheMetadata.key m ≠ key) rows
  = filter (λ k, k ≠ key) (CacheMetadata.key <$> rows).
Proof.
  induction rows as [|m rows IH]; [done|].
  rewrite fmap_cons, !filter_cons. simpl.
  destruct (decide (CacheMetadata.key m ≠ key)); by rewrite ?fmap_cons, IH.
Qed.

Lemma lookup_clearCache_key key s :
  key ≠ CACHE_METADATA_KEY → clearCache key s !! key = None.
Proof.
  intros Hne. unfold clearCache.
  destruct (asArray _); [rewrite lookup_insert_ne by done|]; apply lookup_delete_eq.
Qed.

Lemma lookup_clearCache_other key k s :
  k ≠ key → k ≠ CACHE_METADATA_KEY → clearCache key s !! k = s !! k.
Proof.
  intros Hk Hm. unfold clearCache.
  destruct (asArray _); [rewrite lookup_insert_ne by done|]; by rewrite lookup_delete_ne.
Qed.

Lemma getCacheMetadata_clearCache key s rows :
  key ≠ CACHE_METADATA_KEY →
  getCacheMetadata s = SMeta rows →
  getCacheMetadata (clearCache key s)
  = SMeta (filter (λ m, CacheMetadata.key m ≠ key) rows).
Proof.
  intros Hne Hrows. unfold clearCache.
  rewrite getCacheMetadata_delete_ne, Hrows by done. simpl.
  apply getCacheMetadata_insert_index.
Qed.

Lemma indexRows_clearCache key s :
  key ≠ CACHE_METADATA_KEY →
  indexRows (clearCache key s)
  = filter (λ m, CacheMetadata.key m ≠ key) (indexRows s).
Proof.
  intros Hne. unfold indexRows.
  destruct (getCacheMetadata s) as [e|rows] eqn:Hmeta.
  - unfold clearCache. rewrite getCacheMetadata_delete_ne, Hmeta by done. simpl.
    by rewrite getCacheMetadata_delete_ne, Hmeta.
  - by rewrite (getCacheMetadata_clearCache key s rows).
Qed.

Lemma indexKeys_clearCache key s :
  key ≠ CACHE_METADATA_KEY → key ∉ indexKeys (clearCache key s).
Proof.
  intros Hne. unfold indexKeys. rewrite indexRows_clearCache, keys_filter_ne by done.
  rewrite list_elem_of_filter. tauto.
Qed.

Lemma lookup_cacheArticles_key key data metadata now1 now2 s :
  key ≠ CACHE_METADATA_KEY →
  cacheArticles key data metadata now1 now2 s !! key
  = Some (SEntry {| CacheEntry.data := data; CacheEntry.timestamp := now1 |}).
Proof.
  intros Hne. unfold cacheArticles.
  destruct (asArray _); [rewrite lookup_insert_ne by done|]; apply lookup_insert_eq.
Qed.

Lemma lookup_cacheArticles_other key k data metadata now1 now2 s :
  k ≠ key → k ≠ CACHE_METADATA_KEY →
  cacheArticles key data metadata now1 now2 s !! k = s !! k.
Proof.
  intros Hk Hm. unfold cacheArticles.
  destruct (asArray _); [rewrite lookup_insert_ne by done|]; by rewrite lookup_insert_ne.
Qed.

Lemma getCacheMetadata_cacheArticles key data metadata now1 now2 s rows :
  key ≠ CACHE_METADATA_KEY →
  getCacheMetadata s = SMeta rows →
  getCacheMetadata (cacheArticles key data metadata now1 now2 s)
  = SMeta ({| CacheMetadata.key := MetadataArg.key metadata;
              CacheMetadata.timestamp := now2;
              CacheMetadata.category := MetadataArg.category metadata;
              CacheMetadata.query := MetadataArg.query metadata |}
           :: filter (λ m, CacheMetadata.key m ≠ key) rows).
Proof.
  intros Hne Hrows. unfold cacheArticles.
  rewrite getCacheMetadata_insert_ne, Hrows by done. simpl.
  apply getCacheMetadata_insert_index.
Qed.

(** An entry past its age limit is never handed out: the read deletes it. *)
Lemma getCachedArticles_expired key now s e :
  s !! key = Some (SEntry e) →
  now - CacheEntry.timestamp e > maxAge →
  getCachedArticles key now s = (None, clearCache key s).
Proof.
  intros Hs Hage. unfold getCachedArticles. rewrite Hs.
  by rewrite bool_decide_eq_true_2.
Qed.

Lemma getCachedArticles_fresh key now s e :
  s !! key = Some (SEntry e) →
  now - CacheEntry.timestamp e ≤ maxAge →
  getCachedArticles key now s = (Some (CacheEntry.data e), s).
Proof.
  intros Hs Hage. unfold getCachedArticles. rewrite Hs.
  rewrite bool_decide_eq_false_2; [done | lia].
Qed.

Lemma getCachedArticles_absent key now s :
  s !! key = None → getCachedArticles key now s = (None, s).
Proof. intros Hs. unfold getCachedArticles. by rewrite Hs. Qed.

(** The entry is under the key after the write, whatever the key. *)
Lemma lookup_cacheArticles_entry key data metadata now1 now2 s :
  cacheArticles key data metadata now1 now2 s !! key
  = Some (SEntry {| CacheEntry.data := data; CacheEntry.timestamp := now1 |}).
Proof.
  destruct (decide (key = CACHE_METADATA_KEY)) as [->|Hne];
    [|by apply lookup_cacheArticles_key].
  unfold cacheArticles. rewrite getCacheMetadata_insert_index. simpl.
  apply lookup_insert_eq.
Qed.

(** After [clearCache] the key holds no entry and has no row, whatever the
    key. *)
Lemma clearCache_forgets key s :
  ¬ hasEntry (clearCache key s) key ∧ key ∉ indexKeys (clearCache key s).
Proof.
  destruct (decide (key = CACHE_METADATA_KEY)) as [->|Hne].
  - unfold clearCache.
    replace (getCacheMetadata (delete CACHE_METADATA_KEY s)) with (SMeta [])
      by (unfold getCacheMetadata; by rewrite lookup_delete_eq).
    simpl. split.
    + intros [e He]. by rewrite lookup_insert_eq in He.
    + unfold indexKeys, indexRows. rewrite getCacheMetadata_insert_index. simpl.
      by intros H; inversion H.
  - split; [|by apply indexKeys_clearCache].
    intros [e He]. by rewrite lookup_clearCache_key in He.
Qed.

End CacheFacts.

(** C2, as stated, fails at the boundary: an entry written at time [0] and
    read exactly 24 hours later is still returned, and nothing is deleted. *)
Lemma cache_ttl_boundary_counterexample :
  0 + 24 * 60 * 60 * 1000 ≤ 0 + 86400000 ∧
  CacheStorage.getCachedArticles Sample.headlinesKey (0 + 86400000) Sample.cachedAtZero
  = (Some Sample.page, Sample.cachedAtZero).
Proof. split; [lia | by vm_compute]. Qed.

(** C2 (amended): an entry written by [cacheArticles] at time [T] is
    returned by [getCachedArticles], storage untouched, at every time
    [T' ≤ T + 24h]; at every time [T' > T + 24h] the read returns absent
    and leaves a storage in which the key holds no entry (for a cache key:
    holds nothing) and the index holds no row for the key. *)
Theorem cache_ttl key data metadata T T2 (s : CacheStorage.Storage) :
  let s1 := CacheStorage.cacheArticles key data metadata T T2 s in
  (∀ T', T' ≤ T + 86400000 →
     CacheStorage.getCachedArticles key T' s1 = (Some data, s1)) ∧
  (∀ T', T' > T + 86400000 →
     ∃ s2, CacheStorage.getCachedArticles key T' s1 = (None, s2) ∧
           ¬ CacheSpec.hasEntry s2 key ∧
           (key ∉ CacheSpec.indexKeys s2) ∧
           (key ≠ CacheStorage.CACHE_METADATA_KEY → s2 !! key = None)).
Proof.
  intros s1.
  pose proof (lookup_cacheArticles_entry key data metadata T T2 s) as Hs1.
  fold s1 in Hs1. split; intros T' HT'.
  - rewrite (getCachedArticles_fresh _ _ _ _ Hs1); [done|].
    rewrite maxAge_is_24h. simpl. lia.
  - exists (CacheStorage.clearCache key s1).
    destruct (clearCache_forgets key s1) as [Hentry Hrow]. split_and!; [|done..|].
    + apply (getCachedArticles_expired _ _ _ _ Hs1).
      rewrite maxAge_is_24h. simpl. lia.
    + apply lookup_clearCache_key.
Qed.

Lemma cache_ttl_witness :
  CacheStorage.getCachedArticles Sample.headlinesKey 86400000 Sample.cachedAtZero
  = (Some Sample.page, Sample.cachedAtZero) ∧
  ∃ s2, CacheStorage.getCachedArticles Sample.headlinesKey 86400001 Sample.cachedAtZero
        = (None, s2) ∧
        ¬ CacheSpec.hasEntry s2 Sample.headlinesKey ∧
        (Sample.headlinesKey ∉ CacheSpec.indexKeys s2) ∧
        (Sample.headlinesKey ≠ CacheStorage.CACHE_METADATA_KEY →
         s2 !! Sample.headlinesKey = None).
Proof.
  destruct (cache_ttl Sample.headlinesKey Sample.page Sample.headlinesMeta 0 0 ∅)
    as [Hfresh Hexpired].
  split; [apply Hfresh | apply Hexpired]; lia.
Defined.

(** ** Sweeping expired entries *)

Section Sweep.
Import CacheStorage CacheSpec.
Implicit Types (s : Storage) (key k : string).

(** Whatever the key, [clearCache] leaves a readable index whose rows are
    rows of the old index under other keys. *)
Lemma clearCache_rows key s rows :
  getCacheMetadata s = SMeta rows →
  ∃ rows', getCacheMetadata (clearCache key s) = SMeta rows' ∧
           ∀ m, m ∈ rows' → m ∈ rows ∧ CacheMetadata.key m ≠ key.
Proof.
  intros Hrows. destruct (decide (key = CACHE_METADATA_KEY)) as [->|Hne].
  - exists []. split; [|by intros m Hm; inversion Hm].
    unfold clearCache.
    replace (getCacheMetadata (delete CACHE_METADATA_KEY s)) with (SMeta [])
      by (unfold getCacheMetadata; by rewrite lookup_delete_eq).
    apply getCacheMetadata_insert_index.
  - eexists. split; [by apply getCacheMetadata_clearCache|].
    intros m Hm. by apply list_elem_of_filter in Hm as [? ?].
Qed.

Lemma foldl_clearCache_rows keys : ∀ s rows,
  getCacheMetadata s = SMeta rows →
  ∃ rows', getCacheMetadata (foldl (λ st key, clearCache key st) s keys) = SMeta rows' ∧
           ∀ m, m ∈ rows' → m ∈ rows ∧ CacheMetadata.key m ∉ keys.
Proof.
  induction keys as [|key keys IH]; intros s rows Hrows; simpl.
  - exists rows. split; [done|]. intros m Hm. split; [done|]. by intros H; inversion H.
  - destruct (clearCache_rows key s rows Hrows) as (rows1 & Hrows1 & Hsub1).
    destruct (IH _ _ Hrows1) as (rows2 & Hrows2 & Hsub2).
    exists rows2. split; [done|]. intros m Hm.
    destruct (Hsub2 m Hm) as [Hm1 Hnotin]. destruct (Hsub1 m Hm1) as [Hm0 Hkey].
    split; [done|]. rewrite elem_of_cons.
    intros [Heq|Hin]; [by apply Hkey | by apply Hnotin].
Qed.

(** After a sweep at time [now] no row of the index is expired at [now]. *)
Lemma clearExpiredCache_leaves_none now s rows :
  getCacheMetadata (clearExpiredCache now s) = SMeta rows →
  filter (λ m, now - CacheMetadata.timestamp m > maxAge) rows = [].
Proof.
  unfold clearExpiredCache.
  destruct (getCacheMetadata s) as [e|rows0] eqn:Hmeta; simpl.
  - by rewrite Hmeta.
  - intros Hrows.
    destruct (foldl_clearCache_rows
                (CacheMetadata.key <$>
                   filter (λ m, now - CacheMetadata.timestamp m > maxAge) rows0)
                s rows0 Hmeta) as (rows' & Hrows' & Hsub).
    rewrite Hrows in Hrows'. injection Hrows' as <-.
    destruct (filter _ rows) as [|m ms] eqn:Hf; [done|exfalso].
    assert (m ∈ filter (λ m, now - CacheMetadata.timestamp m > maxAge) rows)
      as [Hexpired Hm]%list_elem_of_filter by (rewrite Hf; left).
    destruct (Hsub m Hm) as [Hm0 Hnotin]. apply Hnotin.
    apply list_elem_of_fmap. exists m. split; [done|].
    by apply list_elem_of_filter.
Qed.

End Sweep.

(** C8: [clearExpiredCache] is idempotent.  For every storage and every
    current time, running the sweep twice at that time leaves the same
    storage (cache entries and index alike) as running it once. *)
Theorem clearExpiredCache_idempotent now (s : CacheStorage.Storage) :
  CacheStorage.clearExpiredCache now (CacheStorage.clearExpiredCache now s)
  = CacheStorage.clearExpiredCache now s.
Proof.
  set (s1 := CacheStorage.clearExpiredCache now s).
  unfold CacheStorage.clearExpiredCache at 1.
  destruct (CacheStorage.getCacheMetadata s1) as [e|rows] eqn:Hmeta; simpl; [done|].
  by rewrite (clearExpiredCache_leaves_none now s rows Hmeta).
Qed.

(** ** Index consistency *)

Section IndexConsistency.
Import CacheStorage CacheSpec.
Implicit Types (s : Storage) (key k : string).

Lemma indexRows_readable s rows :
  getCacheMetadata s = SMeta rows → indexRows s = rows.
Proof. intros H. unfold indexRows. by rewrite H. Qed.

(** The key of the index never holds an entry when the index is readable. *)
Lemma readable_index_not_entry s rows :
  getCacheMetadata s = SMeta rows → ¬ hasEntry s CACHE_METADATA_KEY.
Proof.
  unfold getCacheMetadata. intros Hrows [e He]. rewrite He in Hrows. discriminate.
Qed.

Lemma indexMirrors_index_key s :
  indexMirrors s → CACHE_METADATA_KEY ∉ indexKeys s.
Proof.
  intros ([rows Hrows] & _ & Hiff) Hin.
  by apply (readable_index_not_entry s rows Hrows), Hiff.
Qed.

Lemma cacheArticles_mirrors key data metadata now1 now2 s :
  key ≠ CACHE_METADATA_KEY →
  MetadataArg.key metadata = key →
  indexMirrors s →
  indexMirrors (cacheArticles key data metadata now1 now2 s).
Proof.
  intros Hne Hkey Hinv.
  pose proof (indexMirrors_index_key s Hinv) as Hidx.
  destruct Hinv as ([rows Hrows] & Hnodup & Hiff).
  pose proof (getCacheMetadata_cacheArticles key data metadata now1 now2 s rows Hne Hrows)
    as Hrows'.
  unfold indexKeys in *. rewrite (indexRows_readable _ _ Hrows) in *.
  unfold indexMirrors, indexKeys. rewrite (indexRows_readable _ _ Hrows').
  rewrite fmap_cons, keys_filter_ne. simpl. rewrite Hkey.
  split_and!.
  - by eexists.
  - apply NoDup_cons. split; [|by apply NoDup_filter].
    rewrite list_elem_of_filter. tauto.
  - intros k. rewrite elem_of_cons, list_elem_of_filter. unfold hasEntry.
    destruct (decide (k = key)) as [->|Hk].
    + rewrite lookup_cacheArticles_key by done. split; [by eexists | by left].
    + destruct (decide (k = CACHE_METADATA_KEY)) as [->|Hm].
      * split; [intros [?|[_ ?]]; done|].
        intros He. exfalso. by apply (readable_index_not_entry _ _ Hrows').
      * rewrite lookup_cacheArticles_other by done. rewrite <- (Hiff k). tauto.
Qed.

Lemma clearCache_mirrors key s :
  key ≠ CACHE_METADATA_KEY → indexMirrors s → indexMirrors (clearCache key s).
Proof.
  intros Hne Hinv.
  pose proof (indexMirrors_index_key s Hinv) as Hidx.
  destruct Hinv as ([rows Hrows] & Hnodup & Hiff).
  pose proof (getCacheMetadata_clearCache key s rows Hne Hrows) as Hrows'.
  unfold indexKeys in *. rewrite (indexRows_readable _ _ Hrows) in *.
  unfold indexMirrors, indexKeys. rewrite (indexRows_readable _ _ Hrows').
  rewrite keys_filter_ne.
  split_and!.
  - by eexists.
  - by apply NoDup_filter.
  - intros k. rewrite list_elem_of_filter. unfold hasEntry.
    destruct (decide (k = key)) as [->|Hk].
    + rewrite lookup_clearCache_key by done. split; [tauto | by intros [? ?]].
    + destruct (decide (k = CACHE_METADATA_KEY)) as [->|Hm].
      * split; [intros [_ ?]; done|].
        intros He. exfalso. by apply (readable_index_not_entry _ _ Hrows').
      * rewrite lookup_clearCache_other by done. rewrite <- (Hiff k). tauto.
Qed.

Lemma foldl_clearCache_mirrors keys : ∀ s,
  Forall (λ key, key ≠ CACHE_METADATA_KEY) keys →
  indexMirrors s →
  indexMirrors (foldl (λ st key, clearCache key st) s keys).
Proof.
  induction keys as [|key keys IH]; intros s Hkeys Hinv; simpl; [done|].
  inversion Hkeys; subst. apply IH; [done|]. by apply clearCache_mirrors.
Qed.

Lemma clearExpiredCache_mirrors now s :
  indexMirrors s → indexMirrors (clearExpiredCache now s).
Proof.
  intros Hinv. pose proof (indexMirrors_index_key s Hinv) as Hidx.
  unfold clearExpiredCache.
  destruct (getCacheMetadata s) as [e|rows] eqn:Hrows; simpl; [done|].
  apply foldl_clearCache_mirrors; [|done].
  apply Forall_forall. intros k Hk ->. apply Hidx.
  unfold indexKeys. rewrite (indexRows_readable _ _ Hrows).
  apply list_elem_of_fmap in Hk as (m & -> & Hm).
  apply list_elem_of_fmap. exists m. split; [done|].
  by apply list_elem_of_filter in Hm as [_ ?].
Qed.

Lemma run_mirrors c s : wellKeyed c → indexMirrors s → indexMirrors (run c s).
Proof.
  destruct c as [key data metadata now1 now2|key|now]; simpl.
  - intros [? ?]. by apply cacheArticles_mirrors.
  - apply clearCache_mirrors.
  - intros _. apply clearExpiredCache_mirrors.
Qed.

Lemma runAll_mirrors cs : ∀ s,
  Forall wellKeyed cs → indexMirrors s → indexMirrors (runAll cs s).
Proof.
  induction cs as [|c cs IH]; intros s Hcs Hinv; [done|].
  inversion Hcs; subst. apply IH; [done|]. by apply run_mirrors.
Qed.

(** One row per key: with no key repeated, a key of the index has exactly
    one row. *)
Lemma one_row_per_key (rows : list CacheMetadata.t) k :
  NoDup (CacheMetadata.key <$> rows) →
  k ∈ CacheMetadata.key <$> rows →
  length (filter (λ m, CacheMetadata.key m = k) rows) = 1%nat.
Proof.
  induction rows as [|m rows IH]; [by intros _ H; inversion H|].
  rewrite fmap_cons, NoDup_cons, elem_of_cons, filter_cons.
  intros [Hnotin Hnodup] Hin. destruct (decide (CacheMetadata.key m = k)) as [Heq|Hneq].
  - simpl. f_equal.
    destruct (filter _ rows) as [|m' ms] eqn:Hf; [done|exfalso].
    assert (m' ∈ filter (λ m, CacheMetadata.key m = k) rows)
      as [Hk Hm']%list_elem_of_filter by (rewrite Hf; left).
    apply Hnotin. rewrite Heq, <- Hk. apply list_elem_of_fmap. by exists m'.
  - destruct Hin as [?|Hin]; [congruence|]. by apply IH.
Qed.

End IndexConsistency.

(** C4: starting from a storage whose index mirrors the live cache entries,
    after any sequence of [cacheArticles], [clearCache] and
    [clearExpiredCache] calls on cache keys (each [cacheArticles] call
    passing the row of the key it writes, as the fetch layer does), the index
    mirrors the entries again: every key of the index holds a readable entry,
    and every entry has exactly one row in the index. *)
Theorem index_consistency (cs : list CacheSpec.Call) (s : CacheStorage.Storage) :
  CacheSpec.indexMirrors s →
  Forall CacheSpec.wellKeyed cs →
  let s' := CacheSpec.runAll cs s in
  CacheSpec.indexMirrors s' ∧
  (∀ k, k ∈ CacheSpec.indexKeys s' → CacheSpec.hasEntry s' k) ∧
  (∀ k, CacheSpec.hasEntry s' k →
        length (filter (λ m, CacheStorage.CacheMetadata.key m = k)
                       (CacheSpec.indexRows s')) = 1%nat).
Proof.
  intros Hinv Hcs s'.
  assert (CacheSpec.indexMirrors s') as Hinv' by by apply runAll_mirrors.
  split; [done|]. destruct Hinv' as (_ & Hnodup & Hiff). split.
  - intros k. apply Hiff.
  - intros k Hk. apply one_row_per_key; [done|]. by apply Hiff.
Qed.

Lemma index_consistency_witness :
  let s' := CacheSpec.runAll Sample.calls ∅ in
  CacheSpec.indexMirrors s' ∧
  (∀ k, k ∈ CacheSpec.indexKeys s' → CacheSpec.hasEntry s' k) ∧
  (∀ k, CacheSpec.hasEntry s' k →
        length (filter (λ m, CacheStorage.CacheMetadata.key m = k)
                       (CacheSpec.indexRows s')) = 1%nat).
Proof.
  apply (index_consistency Sample.calls ∅).
  - split_and!.
    + by exists [].
    + apply NoDup_nil_2.
    + intros k. split; [by intros H; inversion H|].
      intros [e He]. by rewrite lookup_empty in He.
  - repeat constructor; vm_compute; congruence.
Defined.

(** ** Content fetch layer *)

Section FetchFacts.
Import Types CacheStorage CacheSpec NewsApi NewsApiSpec.
Implicit Types (s : Storage) (env : Env).

(** With [useCache = false], a successful fetch of page 1 writes the entry
    and puts its row at the head of the index. *)
Lemma getTopHeadlines_refresh_overwrites category env s data rows :
  network env = Resolves data →
  getCacheMetadata s = SMeta rows →
  let key := headlinesKey category 1 in
  ∃ s', getTopHeadlines category 1 false env s = (Fulfilled data, s') ∧
        s' !! key = Some (SEntry {| CacheEntry.data := data;
                                    CacheEntry.timestamp := nowPutEntry env |}) ∧
        indexRows s'
        = {| CacheMetadata.key := key;
             CacheMetadata.timestamp := nowPutMeta env;
             CacheMetadata.category := Some (Category_toString category);
             CacheMetadata.query := None |}
          :: filter (λ m, CacheMetadata.key m ≠ key) rows.
Proof.
  intros Hnet Hrows key. unfold getTopHeadlines. simpl. rewrite Hnet.
  eexists. split; [reflexivity|]. fold (headlinesKey category 1). fold key.
  assert (key ≠ CACHE_METADATA_KEY) as Hne by apply generateCacheKey_not_metadata.
  split.
  - by apply lookup_cacheArticles_key.
  - apply indexRows_readable. by apply getCacheMetadata_cacheArticles.
Qed.

Lemma searchNews_refresh_overwrites query env s data rows :
  network env = Resolves data →
  getCacheMetadata s = SMeta rows →
  let key := searchKey query 1 in
  ∃ s', searchNews query 1 false env s = (Fulfilled data, s') ∧
        s' !! key = Some (SEntry {| CacheEntry.data := data;
                                    CacheEntry.timestamp := nowPutEntry env |}) ∧
        indexRows s'
        = {| CacheMetadata.key := key;
             CacheMetadata.timestamp := nowPutMeta env;
             CacheMetadata.category := None;
             CacheMetadata.query := Some query |}
          :: filter (λ m, CacheMetadata.key m ≠ key) rows.
Proof.
  intros Hnet Hrows key. unfold searchNews. simpl. rewrite Hnet.
  eexists. split; [reflexivity|]. fold (searchKey query 1). fold key.
  assert (key ≠ CACHE_METADATA_KEY) as Hne by apply generateCacheKey_not_metadata.
  split.
  - by apply lookup_cacheArticles_key.
  - apply indexRows_readable. by apply getCacheMetadata_cacheArticles.
Qed.

(** With [useCache = false], a failed fetch of page 1 returns the cached
    page as long as the entry is at most 24 hours old. *)
Lemma getTopHeadlines_refresh_falls_back category env s e :
  failed (network env) →
  s !! headlinesKey category 1 = Some (SEntry e) →
  nowFallback env - CacheEntry.timestamp e ≤ maxAge →
  getTopHeadlines category 1 false env s = (Fulfilled (CacheEntry.data e), s).
Proof.
  intros Hnet Hs Hage. unfold getTopHeadlines. simpl.
  fold (headlinesKey category 1).
  rewrite (getCachedArticles_fresh _ _ _ _ Hs Hage).
  by destruct (network env).
Qed.

Lemma searchNews_refresh_falls_back query env s e :
  failed (network env) →
  s !! searchKey query 1 = Some (SEntry e) →
  nowFallback env - CacheEntry.timestamp e ≤ maxAge →
  searchNews query 1 false env s = (Fulfilled (CacheEntry.data e), s).
Proof.
  intros Hnet Hs Hage. unfold searchNews. simpl.
  fold (searchKey query 1).
  rewrite (getCachedArticles_fresh _ _ _ _ Hs Hage).
  by destruct (network env).
Qed.

(** The stale entry is not served: when the request for page 1 fails and
    the entry under the key is older than 24 hours, the call is rejected
    and the entry is deleted, whatever [useCache] is. *)
Lemma getTopHeadlines_expired_rejected category useCache env s e :
  failed (network env) →
  s !! headlinesKey category 1 = Some (SEntry e) →
  nowRead env - CacheEntry.timestamp e > maxAge →
  nowFallback env - CacheEntry.timestamp e > maxAge →
  ∃ message s',
    getTopHeadlines category 1 useCache env s = (Rejected message, s') ∧
    s' !! headlinesKey category 1 = None.
Proof.
  intros Hnet Hs Hread Hfall. unfold getTopHeadlines.
  fold (headlinesKey category 1).
  assert (headlinesKey category 1 ≠ CACHE_METADATA_KEY) as Hne
    by apply generateCacheKey_not_metadata.
  destruct useCache; simpl.
  - rewrite (getCachedArticles_expired _ _ _ _ Hs Hread).
    rewrite getCachedArticles_absent by by apply lookup_clearCache_key.
    destruct (network env); [done|..]; do 2 eexists;
      (split; [reflexivity | by apply lookup_clearCache_key]).
  - rewrite (getCachedArticles_expired _ _ _ _ Hs Hfall).
    destruct (network env); [done|..]; do 2 eexists;
      (split; [reflexivity | by apply lookup_clearCache_key]).
Qed.

Lemma searchNews_expired_rejected query useCache env s e :
  failed (network env) →
  s !! searchKey query 1 = Some (SEntry e) →
  nowRead env - CacheEntry.timestamp e > maxAge →
  nowFallback env - CacheEntry.timestamp e > maxAge →
  ∃ message s',
    searchNews query 1 useCache env s = (Rejected message, s') ∧
    s' !! searchKey query 1 = None.
Proof.
  intros Hnet Hs Hread Hfall. unfold searchNews.
  fold (searchKey query 1).
  assert (searchKey query 1 ≠ CACHE_METADATA_KEY) as Hne
    by apply generateCacheKey_not_metadata.
  destruct useCache; simpl.
  - rewrite (getCachedArticles_expired _ _ _ _ Hs Hread).
    rewrite getCachedArticles_absent by by apply lookup_clearCache_key.
    destruct (network env); [done|..]; do 2 eexists;
      (split; [reflexivity | by apply lookup_clearCache_key]).
  - rewrite (getCachedArticles_expired _ _ _ _ Hs Hfall).
    destruct (network env); [done|..]; do 2 eexists;
      (split; [reflexivity | by apply lookup_clearCache_key]).
Qed.

Lemma getCachedArticles_mirrors key now s :
  key ≠ CACHE_METADATA_KEY →
  indexMirrors s → indexMirrors (getCachedArticles key now s).2.
Proof.
  intros Hne Hinv. unfold getCachedArticles.
  destruct (s !! key) as [[e|rows]|]; [|done..].
  case_bool_decide; [|done]. by apply clearCache_mirrors.
Qed.

(** After the fresh-cache check both functions either write the entry
    with its row or read the key once more. *)
Ltac fetch_tail Hne :=
  destruct (network _); case_bool_decide; simpl;
  try (by apply cacheArticles_mirrors); try done;
  match goal with
  | |- context [getCachedArticles ?k ?t ?st] =>
      let H := fresh in
      pose proof (getCachedArticles_mirrors k t st Hne ltac:(done)) as H;
      destruct (getCachedArticles k t st) as [[?|] ?]; simpl in *; done
  end.

(** Every call the fetch layer makes on the cache is on a cache key and
    passes the row of that key: the fetch layer keeps the index a mirror of
    the entries. *)
Lemma getTopHeadlines_mirrors category page useCache env s :
  indexMirrors s → indexMirrors (getTopHeadlines category page useCache env s).2.
Proof.
  intros Hinv. unfold getTopHeadlines.
  fold (headlinesKey category page).
  assert (headlinesKey category page ≠ CACHE_METADATA_KEY) as Hne
    by apply generateCacheKey_not_metadata.
  pose proof (getCachedArticles_mirrors _ (nowRead env) s Hne Hinv) as Hread.
  destruct (useCache && bool_decide (page = 1)); [|fetch_tail Hne].
  destruct (getCachedArticles _ (nowRead env) s) as [[cached|] s1]; simpl in Hread;
    [done | fetch_tail Hne].
Qed.

Lemma searchNews_mirrors query page useCache env s :
  indexMirrors s → indexMirrors (searchNews query page useCache env s).2.
Proof.
  intros Hinv. unfold searchNews.
  fold (searchKey query page).
  assert (searchKey query page ≠ CACHE_METADATA_KEY) as Hne
    by apply generateCacheKey_not_metadata.
  pose proof (getCachedArticles_mirrors _ (nowRead env) s Hne Hinv) as Hread.
  destruct (useCache && bool_decide (page = 1)); [|fetch_tail Hne].
  destruct (getCachedArticles _ (nowRead env) s) as [[cached|] s1]; simpl in Hread;
    [done | fetch_tail Hne].
Qed.

End FetchFacts.

(** C3: for a request with page number 2 or more, [getTopHeadlines] and
    [searchNews] leave the storage (cache entries and index) exactly as it
    was, and their outcome is the outcome of the network call alone: the same
    for every storage, whether page 1 is cached or not, whether the request
    resolves or fails, and whatever [useCache] is. *)
Theorem later_pages_bypass_cache category query page useCache env
    (s : CacheStorage.Storage) :
  2 ≤ page →
  NewsApi.getTopHeadlines category page useCache env s
  = (NewsApiSpec.live "Failed to fetch news. Please check your connection."
       "An unexpected error occurred while fetching news." (NewsApi.network env), s) ∧
  NewsApi.searchNews query page useCache env s
  = (NewsApiSpec.live "Failed to search news. Please check your connection."
       "An unexpected error occurred while searching." (NewsApi.network env), s).
Proof.
  intros Hpage. unfold NewsApi.getTopHeadlines, NewsApi.searchNews.
  rewrite (bool_decide_eq_false_2 (page = 1)) by lia. rewrite andb_false_r.
  split; by destruct (NewsApi.network env).
Qed.

Lemma later_pages_bypass_cache_witness :
  NewsApi.getTopHeadlines Types.general 2 true Sample.offlineAfterExpiry Sample.cachedAtZero
  = (NewsApiSpec.live "Failed to fetch news. Please check your connection."
       "An unexpected error occurred while fetching news."
       (NewsApi.network Sample.offlineAfterExpiry), Sample.cachedAtZero) ∧
  NewsApi.searchNews "climate" 2 true Sample.offlineAfterExpiry Sample.cachedAtZero
  = (NewsApiSpec.live "Failed to search news. Please check your connection."
       "An unexpected error occurred while searching."
       (NewsApi.network Sample.offlineAfterExpiry), Sample.cachedAtZero).
Proof.
  apply (later_pages_bypass_cache Types.general "climate" 2 true
           Sample.offlineAfterExpiry Sample.cachedAtZero).
  lia.
Defined.

(** C1, at a failing input: page 1 of the general headlines was cached at
    time 0; one millisecond after the 24 hours the request fails for lack of
    a connection.  The entry is in the storage, yet [getTopHeadlines] is
    rejected with the connection error, and the entry and its row are gone. *)
Example getTopHeadlines_stale_entry_rejected :
  Sample.cachedAtZero !! Sample.headlinesKey
  = Some (CacheStorage.SEntry {| CacheStorage.CacheEntry.data := Sample.page;
                                 CacheStorage.CacheEntry.timestamp := 0 |}) ∧
  NewsApi.getTopHeadlines Types.general 1 true Sample.offlineAfterExpiry Sample.cachedAtZero
  = (NewsApi.Rejected "Failed to fetch news. Please check your connection.",
     {[ CacheStorage.CACHE_METADATA_KEY := CacheStorage.SMeta [] ]}).
Proof. split; by vm_compute. Qed.

(** C10, at a failing input: with [useCache = false], page 1 of the search
    for "climate" was cached at time 0 and the request fails one millisecond
    after the 24 hours.  The entry is in the storage, yet [searchNews] is
    rejected, and the entry and its row are gone. *)
Example searchNews_refresh_stale_entry_rejected :
  Sample.searchCachedAtZero !! Sample.searchKey
  = Some (CacheStorage.SEntry {| CacheStorage.CacheEntry.data := Sample.page;
                                 CacheStorage.CacheEntry.timestamp := 0 |}) ∧
  NewsApi.searchNews "climate" 1 false Sample.offlineAfterExpiry Sample.searchCachedAtZero
  = (NewsApi.Rejected "Failed to search news. Please check your connection.",
     {[ CacheStorage.CACHE_METADATA_KEY := CacheStorage.SMeta [] ]}).
Proof. split; by vm_compute. Qed.

(** ** Reading event log *)

Section HistoryFacts.
Import Types ReadingHistoryService HistorySpec.
Implicit Types (s : Storage) (history : list ReadingHistoryItem) (u : string).

(** [findIndex] followed by [splice(existingIndex, 1)] removes the first
    entry for the URL. *)
Lemma splice_found_is_withoutFirst u history :
  match Js.findIndex (λ item, bool_decide (url (article item) = u)) history with
  | Some i => delete i history
  | None => history
  end = withoutFirst u history.
Proof.
  induction history as [|item rest IH]; [done|]. simpl.
  destruct (bool_decide (url (article item) = u)); [done|].
  destruct (Js.findIndex _ rest) as [i|]; simpl in *; f_equal; exact IH.
Qed.

Lemma getHistory_insert history s :
  getHistory (<[HISTORY_STORAGE_KEY := history]> s) = history.
Proof. unfold getHistory. by rewrite lookup_insert_eq. Qed.

(** What [addToHistory] stores: the new entry in front of the log without
    the previous entry for the URL, cut after [MAX_HISTORY_ITEMS] entries. *)
Lemma getHistory_addToHistory a seconds cat now s :
  getHistory (addToHistory a seconds cat now s)
  = take MAX_HISTORY_ITEMS
      (entry a seconds cat now :: withoutFirst (url a) (getHistory s)).
Proof.
  unfold addToHistory. rewrite getHistory_insert, splice_found_is_withoutFirst.
  fold (entry a seconds cat now). case_bool_decide as Hlen; [done|].
  rewrite take_ge; [done|]. lia.
Qed.

Lemma entriesFor_withoutFirst_same u history :
  length (entriesFor u (withoutFirst u history))
  = Nat.pred (length (entriesFor u history)).
Proof.
  unfold entriesFor. induction history as [|item rest IH]; [done|]. simpl.
  rewrite filter_cons. case_bool_decide as Hu.
  - by rewrite decide_True.
  - rewrite decide_False by done. rewrite filter_cons, decide_False by done. apply IH.
Qed.

Lemma entriesFor_withoutFirst_other u u' history :
  u' ≠ u → entriesFor u' (withoutFirst u history) = entriesFor u' history.
Proof.
  intros Hne. unfold entriesFor. induction history as [|item rest IH]; [done|]. simpl.
  rewrite filter_cons. case_bool_decide as Hu.
  - rewrite decide_False; [done | congruence].
  - rewrite filter_cons. by rewrite IH.
Qed.

Lemma entriesFor_take_length u n history :
  (length (entriesFor u (take n history)) ≤ length (entriesFor u history))%nat.
Proof.
  unfold entriesFor. rewrite <- (take_drop n history) at 2.
  rewrite filter_app, length_app. lia.
Qed.

Lemma entriesFor_nil_length u history :
  length (entriesFor u history) = 0%nat → entriesFor u history = [].
Proof. by destruct (entriesFor u history). Qed.

Lemma withoutFirst_sublist u history : withoutFirst u history `sublist_of` history.
Proof.
  induction history as [|item rest IH]; [done|]. simpl.
  case_bool_decide; [by apply sublist_cons | by apply sublist_skip].
Qed.

Lemma uniqueUrls_entriesFor u history :
  uniqueUrls history → (length (entriesFor u history) ≤ 1)%nat.
Proof.
  unfold uniqueUrls, entriesFor. induction history as [|item rest IH]; [simpl; lia|].
  rewrite fmap_cons, NoDup_cons, filter_cons. intros [Hnotin Hnodup].
  case_decide as Hu; [|by apply IH]. simpl.
  destruct (filter _ rest) as [|item' items] eqn:Hf; [simpl; lia|exfalso].
  assert (item' ∈ filter (λ item, url (article item) = u) rest)
    as [Hu' Hin]%list_elem_of_filter by (rewrite Hf; left).
  apply Hnotin. rewrite Hu, <- Hu'. apply list_elem_of_fmap. by exists item'.
Qed.

Lemma withoutFirst_forgets u history :
  uniqueUrls history → u ∉ (λ item, url (article item)) <$> withoutFirst u history.
Proof.
  unfold uniqueUrls. induction history as [|item rest IH]; [by intros _ H; inversion H|].
  rewrite fmap_cons, NoDup_cons. intros [Hnotin Hnodup]. simpl.
  case_bool_decide as Hu; [by rewrite <- Hu|].
  rewrite fmap_cons, elem_of_cons. intros [?|?]; [done | by apply IH].
Qed.

(** The service keeps URLs unique: every operation preserves it, and the
    empty storage has it. *)
Lemma uniqueUrls_addToHistory a seconds cat now s :
  uniqueUrls (getHistory s) →
  uniqueUrls (getHistory (addToHistory a seconds cat now s)).
Proof.
  intros Huniq. rewrite getHistory_addToHistory. unfold uniqueUrls.
  eapply sublist_NoDup; [|apply fmap_sublist, sublist_take].
  rewrite fmap_cons. apply NoDup_cons. split.
  - by apply withoutFirst_forgets.
  - eapply sublist_NoDup; [done | apply fmap_sublist, withoutFirst_sublist].
Qed.

Lemma uniqueUrls_removeFromHistory u s :
  uniqueUrls (getHistory s) → uniqueUrls (getHistory (removeFromHistory u s)).
Proof.
  intros Huniq. unfold removeFromHistory. rewrite getHistory_insert.
  eapply sublist_NoDup; [done | apply fmap_sublist, sublist_filter].
Qed.

Lemma uniqueUrls_clearHistory s : uniqueUrls (getHistory (clearHistory s)).
Proof.
  unfold clearHistory, getHistory. rewrite lookup_delete_eq. apply NoDup_nil_2.
Qed.

Lemma uniqueUrls_empty : uniqueUrls (getHistory ∅).
Proof. apply NoDup_nil_2. Qed.

End HistoryFacts.

(** C7: take a log holding at most one entry for an article URL (as every
    log written by the service does).  Recording the URL twice leaves exactly
    one entry for it, at the head of the log, carrying the timestamp and the
    duration of the second recording.  After any single [addToHistory] the
    log is the new entry followed by the old log without the previous entry
    for the URL, cut after [MAX_HISTORY_ITEMS = 100] entries, so it never
    holds more than 100 and what is dropped is the oldest end. *)
Theorem record_dedupes_and_caps a1 a2 seconds1 seconds2 cat1 cat2 t1 t2
    (s : ReadingHistoryService.Storage) :
  Types.url a1 = Types.url a2 →
  (length (HistorySpec.entriesFor (Types.url a2) (ReadingHistoryService.getHistory s))
   ≤ 1)%nat →
  let s2 :=
    ReadingHistoryService.addToHistory a2 seconds2 cat2 t2
      (ReadingHistoryService.addToHistory a1 seconds1 cat1 t1 s) in
  (∃ rest,
     ReadingHistoryService.getHistory s2
     = HistorySpec.entry a2 seconds2 cat2 t2 :: rest ∧
     HistorySpec.entriesFor (Types.url a2) rest = []) ∧
  length (HistorySpec.entriesFor (Types.url a2) (ReadingHistoryService.getHistory s2))
  = 1%nat ∧
  (∀ a seconds cat now (s0 : ReadingHistoryService.Storage),
     ReadingHistoryService.getHistory
       (ReadingHistoryService.addToHistory a seconds cat now s0)
     = take 100 (HistorySpec.entry a seconds cat now
                 :: HistorySpec.withoutFirst (Types.url a)
                      (ReadingHistoryService.getHistory s0)) ∧
     (length (ReadingHistoryService.getHistory
                (ReadingHistoryService.addToHistory a seconds cat now s0))
      ≤ 100)%nat).
Proof.
  intros Hurl Hone s2.
  assert (∃ rest,
     ReadingHistoryService.getHistory s2
     = HistorySpec.entry a2 seconds2 cat2 t2 :: rest ∧
     HistorySpec.entriesFor (Types.url a2) rest = []) as Hhead.
  { unfold s2. rewrite !getHistory_addToHistory.
    change ReadingHistoryService.MAX_HISTORY_ITEMS with (S 99).
    rewrite !firstn_cons. simpl HistorySpec.withoutFirst.
    rewrite bool_decide_eq_true_2 by done.
    eexists. split; [reflexivity|]. rewrite take_take.
    apply entriesFor_nil_length. apply Nat.le_0_r.
    etrans; [apply entriesFor_take_length|].
    rewrite Hurl, entriesFor_withoutFirst_same. lia. }
  split; [done|]. split.
  - destruct Hhead as (rest & -> & Hrest). unfold HistorySpec.entriesFor in *.
    rewrite filter_cons, decide_True by done. simpl. by rewrite Hrest.
  - intros a seconds cat now s0. rewrite getHistory_addToHistory. split; [done|].
    rewrite length_take. unfold ReadingHistoryService.MAX_HISTORY_ITEMS. lia.
Qed.

Lemma record_dedupes_and_caps_witness :
  let s2 :=
    ReadingHistoryService.addToHistory Sample.story 40 "science" 2000
      (ReadingHistoryService.addToHistory Sample.story 25 "science" 1000 ∅) in
  (∃ rest,
     ReadingHistoryService.getHistory s2
     = HistorySpec.entry Sample.story 40 "science" 2000 :: rest ∧
     HistorySpec.entriesFor (Types.url Sample.story) rest = []) ∧
  length (HistorySpec.entriesFor (Types.url Sample.story)
            (ReadingHistoryService.getHistory s2))
  = 1%nat ∧
  (∀ a seconds cat now (s0 : ReadingHistoryService.Storage),
     ReadingHistoryService.getHistory
       (ReadingHistoryService.addToHistory a seconds cat now s0)
     = take 100 (HistorySpec.entry a seconds cat now
                 :: HistorySpec.withoutFirst (Types.url a)
                      (ReadingHistoryService.getHistory s0)) ∧
     (length (ReadingHistoryService.getHistory
                (ReadingHistoryService.addToHistory a seconds cat now s0))
      ≤ 100)%nat).
Proof.
  apply (record_dedupes_and_caps Sample.story Sample.story 25 40
           "science" "science" 1000 2000 ∅).
  - reflexivity.
  - vm_compute. lia.
Defined.

(** ** Analytics reducer *)

(** C6: on an empty log [getStats] returns, for every clock and time zone,
    the snapshot of [getEmptyStats]: every count and every duration is 0,
    both streaks are 0, the favorites are "None" and the tables are empty.
    The function is total, and no division is evaluated on this path. *)
Theorem getStats_empty_log tz (s : ReadingHistoryService.Storage) now :
  ReadingHistoryService.getHistory s = [] →
  let stats := ReadingHistoryService.getStats tz s now in
  stats = ReadingHistoryService.getEmptyStats ∧
  ReadingHistoryService.totalArticlesRead stats = 0%nat ∧
  ReadingHistoryService.totalReadingTime stats = 0%Q ∧
  ReadingHistoryService.averageReadingTime stats = 0%Q ∧
  ReadingHistoryService.currentStreak stats = 0%nat ∧
  ReadingHistoryService.longestStreak stats = 0%nat ∧
  ReadingHistoryService.articlesReadToday stats = 0%nat ∧
  ReadingHistoryService.articlesReadThisWeek stats = 0%nat ∧
  ReadingHistoryService.articlesReadThisMonth stats = 0%nat ∧
  ReadingHistoryService.favoriteCategory stats = "None" ∧
  ReadingHistoryService.favoriteSource stats = "None" ∧
  ReadingHistoryService.categoriesBreakdown stats = [] ∧
  ReadingHistoryService.sourcesBreakdown stats = [] ∧
  ReadingHistoryService.readingByDay stats = ∅ ∧
  ReadingHistoryService.readingByHour stats = ∅.
Proof.
  intros Hempty stats. unfold stats, ReadingHistoryService.getStats.
  rewrite Hempty. simpl. by repeat split.
Qed.

Lemma getStats_empty_log_witness :
  let stats := ReadingHistoryService.getStats 3600000 ∅ 1700000000000 in
  stats = ReadingHistoryService.getEmptyStats ∧
  ReadingHistoryService.totalArticlesRead stats = 0%nat ∧
  ReadingHistoryService.totalReadingTime stats = 0%Q ∧
  ReadingHistoryService.averageReadingTime stats = 0%Q ∧
  ReadingHistoryService.currentStreak stats = 0%nat ∧
  ReadingHistoryService.longestStreak stats = 0%nat ∧
  ReadingHistoryService.articlesReadToday stats = 0%nat ∧
  ReadingHistoryService.articlesReadThisWeek stats = 0%nat ∧
  ReadingHistoryService.articlesReadThisMonth stats = 0%nat ∧
  ReadingHistoryService.favoriteCategory stats = "None" ∧
  ReadingHistoryService.favoriteSource stats = "None" ∧
  ReadingHistoryService.categoriesBreakdown stats = [] ∧
  ReadingHistoryService.sourcesBreakdown stats = [] ∧
  ReadingHistoryService.readingByDay stats = ∅ ∧
  ReadingHistoryService.readingByHour stats = ∅.
Proof.
  apply (getStats_empty_log 3600000 ∅ 1700000000000). reflexivity.
Defined.

(** ** JavaScript built-ins *)

Section JsFacts.
Context {A : Type}.



Context `{EqDecision A}.





End JsFacts.

(** ** Streaks *)

Section StreakFacts.
Import ReadingHistoryService StatsSpec.
Variable tz : Z.
Implicit Types (history : list ReadingHistoryItem) (days : list DateKey).








End StreakFacts.



(** ** Counter tables and favorites *)

Section CounterFacts.
Import ReadingHistoryService StatsSpec.
Implicit Types (o table : list (string * nat)) (k t : string) (tags : list string).















End CounterFacts.




(** * Further properties of the code *)

(** ** Cache keys *)

(** X1: [generateCacheKey] separates requests: two keys are equal only for the
    same request type and the same value, and no key is the key of the index. *)
Theorem generateCacheKey_separates type1 value1 type2 value2 :
  (CacheStorage.generateCacheKey type1 value1 = CacheStorage.generateCacheKey type2 value2
   ↔ type1 = type2 ∧ value1 = value2) ∧
  CacheStorage.generateCacheKey type1 value1 ≠ CacheStorage.CACHE_METADATA_KEY.
Proof.
  split; [|apply generateCacheKey_not_metadata].
  split; [|by intros [-> ->]].
  destruct type1, type2; simpl; intros H; simplify_eq; done.
Qed.

(** X2: The keys of the headline requests: different categories or different
    pages never share a cache key, and a headline request never shares one
    with a search. *)
Theorem headlinesKey_separates category1 page1 category2 page2 query page :
  (NewsApiSpec.headlinesKey category1 page1 = NewsApiSpec.headlinesKey category2 page2
   ↔ category1 = category2 ∧ page1 = page2) ∧
  NewsApiSpec.headlinesKey category1 page1 ≠ NewsApiSpec.searchKey query page.
Proof.
  split; [|discriminate].
  split; [|by intros [-> ->]].
  unfold NewsApiSpec.headlinesKey, CacheStorage.generateCacheKey.
  destruct category1, category2; simpl; intros H; simplify_eq;
    (split; [done|]); by apply (inj pretty).
Qed.

(** ** Cache layer *)

Section CacheMore.
Import CacheStorage CacheSpec.
Implicit Types (s : Storage) (key k : string).

Lemma filter_key_ne_idemp key (rows : list CacheMetadata.t) :
  filter (λ m, CacheMetadata.key m ≠ key) (filter (λ m, CacheMetadata.key m ≠ key) rows)
  = filter (λ m, CacheMetadata.key m ≠ key) rows.
Proof.
  induction rows as [|m rows IH]; [done|]. rewrite filter_cons.
  case_decide; [|done]. rewrite filter_cons, decide_True by done. by rewrite IH.
Qed.

Lemma clearCache_twice key s : clearCache key (clearCache key s) = clearCache key s.
Proof.
  destruct (decide (key = CACHE_METADATA_KEY)) as [->|Hne].
  - unfold clearCache.
    replace (getCacheMetadata (delete CACHE_METADATA_KEY s)) with (SMeta [])
      by (unfold getCacheMetadata; by rewrite lookup_delete_eq).
    simpl. rewrite delete_insert_eq, delete_delete_eq.
    replace (getCacheMetadata (delete CACHE_METADATA_KEY s)) with (SMeta [])
      by (unfold getCacheMetadata; by rewrite lookup_delete_eq).
    done.
  - unfold clearCache at 2. rewrite getCacheMetadata_delete_ne by done.
    destruct (getCacheMetadata s) as [e|rows] eqn:Hmeta; simpl.
    + unfold clearCache. rewrite delete_delete_eq, getCacheMetadata_delete_ne, Hmeta by done.
      done.
    + unfold clearCache. rewrite delete_insert_ne, delete_delete_eq by done.
      rewrite getCacheMetadata_insert_index. simpl.
      rewrite getCacheMetadata_delete_ne, Hmeta by done. simpl.
      by rewrite insert_insert_eq, filter_key_ne_idemp.
Qed.

End CacheMore.

(** X3: [clearCache] is idempotent, touches only its key and the index, and
    takes out of a readable index exactly the rows of its key. *)
Theorem clearCache_removes_one_key key (s : CacheStorage.Storage) :
  CacheStorage.clearCache key (CacheStorage.clearCache key s)
  = CacheStorage.clearCache key s ∧
  (∀ k, k ≠ key → k ≠ CacheStorage.CACHE_METADATA_KEY →
        CacheStorage.clearCache key s !! k = s !! k) ∧
  (key ≠ CacheStorage.CACHE_METADATA_KEY →
   CacheStorage.clearCache key s !! key = None ∧
   CacheSpec.indexRows (CacheStorage.clearCache key s)
   = filter (λ m, CacheStorage.CacheMetadata.key m ≠ key) (CacheSpec.indexRows s)).
Proof.
  split_and!.
  - apply clearCache_twice.
  - intros k Hk Hm. by apply lookup_clearCache_other.
  - intros Hne. split; [by apply lookup_clearCache_key | by apply indexRows_clearCache].
Qed.

(** X4: [cacheArticles] is an upsert: under a cache key, with the row naming
    that key and a readable index, the index afterwards starts with the new
    row, holds exactly one row for the key (however many it held before), and
    keeps the rows of the other keys in their order; no other key of the
    storage changes. *)
Theorem cacheArticles_upserts key data metadata now1 now2
    (s : CacheStorage.Storage) rows :
  key ≠ CacheStorage.CACHE_METADATA_KEY →
  CacheStorage.MetadataArg.key metadata = key →
  CacheStorage.getCacheMetadata s = CacheStorage.SMeta rows →
  let s' := CacheStorage.cacheArticles key data metadata now1 now2 s in
  let row :=
    {| CacheStorage.CacheMetadata.key := key;
       CacheStorage.CacheMetadata.timestamp := now2;
       CacheStorage.CacheMetadata.category := CacheStorage.MetadataArg.category metadata;
       CacheStorage.CacheMetadata.query := CacheStorage.MetadataArg.query metadata |} in
  CacheSpec.indexRows s'
  = row :: filter (λ m, CacheStorage.CacheMetadata.key m ≠ key) rows ∧
  filter (λ m, CacheStorage.CacheMetadata.key m = key) (CacheSpec.indexRows s') = [row] ∧
  (∀ k, k ≠ key → k ≠ CacheStorage.CACHE_METADATA_KEY → s' !! k = s !! k).
Proof.
  intros Hne Hkey Hrows s' row. subst key.
  assert (CacheSpec.indexRows s'
          = row :: filter (λ m, CacheStorage.CacheMetadata.key m
                                ≠ CacheStorage.MetadataArg.key metadata) rows) as Hindex.
  { apply indexRows_readable. by apply getCacheMetadata_cacheArticles. }
  split_and!; [done| |].
  - rewrite Hindex, filter_cons, decide_True by done. f_equal.
    destruct (filter _ (filter _ rows)) as [|m ms] eqn:Hf; [done|exfalso].
    assert (m ∈ filter (λ m, CacheStorage.CacheMetadata.key m
                             = CacheStorage.MetadataArg.key metadata)
                  (filter (λ m, CacheStorage.CacheMetadata.key m
                                ≠ CacheStorage.MetadataArg.key metadata) rows))
      as [Heq [Hneq _]%list_elem_of_filter]%list_elem_of_filter by (rewrite Hf; left).
    done.
  - intros k Hk Hm. by apply lookup_cacheArticles_other.
Qed.

Lemma cacheArticles_upserts_witness :
  let s' :=
    CacheStorage.cacheArticles Sample.headlinesKey Sample.newerPage Sample.headlinesMeta
      7 9 Sample.cachedAtZero in
  filter (λ m, CacheStorage.CacheMetadata.key m = Sample.headlinesKey)
         (CacheSpec.indexRows s')
  = [ {| CacheStorage.CacheMetadata.key := Sample.headlinesKey;
         CacheStorage.CacheMetadata.timestamp := 9;
         CacheStorage.CacheMetadata.category := Some "general";
         CacheStorage.CacheMetadata.query := None |} ].
Proof.
  eapply (proj1 (proj2 (cacheArticles_upserts Sample.headlinesKey Sample.newerPage
                          Sample.headlinesMeta 7 9 Sample.cachedAtZero _ _ _ _))).
  Unshelve.
  - exact [ {| CacheStorage.CacheMetadata.key := Sample.headlinesKey;
               CacheStorage.CacheMetadata.timestamp := 0;
               CacheStorage.CacheMetadata.category := Some "general";
               CacheStorage.CacheMetadata.query := None |} ].
  - vm_compute. discriminate.
  - reflexivity.
  - by vm_compute.
Defined.

(** ** Sweeps *)

Section SweepMore.
Import CacheStorage CacheSpec.
Implicit Types (s : Storage) (key k : string).

(** Clearing a list of cache keys: the keys are gone, their rows are gone,
    everything else stays. *)
Lemma foldl_clearCache_exact keys : ∀ s,
  Forall (λ key, key ≠ CACHE_METADATA_KEY) keys →
  indexRows (foldl (λ st key, clearCache key st) s keys)
  = filter (λ m, CacheMetadata.key m ∉ keys) (indexRows s) ∧
  ∀ k, k ≠ CACHE_METADATA_KEY →
       foldl (λ st key, clearCache key st) s keys !! k
       = if decide (k ∈ keys) then None else s !! k.
Proof.
  induction keys as [|key keys IH]; intros s Hkeys; cbn [foldl].
  - split.
    + symmetry. induction (indexRows s) as [|m rows IHrows]; [done|].
      rewrite filter_cons, decide_True by by intros H; inversion H. by rewrite IHrows.
    + intros k _. by rewrite decide_False by by intros H; inversion H.
  - inversion Hkeys as [|? ? Hkey Hrest]; subst.
    destruct (IH (clearCache key s) Hrest) as [IHrows IHlookup]. split.
    + rewrite IHrows, indexRows_clearCache by done.
      induction (indexRows s) as [|m rows IHr]; [done|].
      rewrite !filter_cons. destruct (decide (CacheMetadata.key m ≠ key)) as [Hm|Hm].
      * rewrite filter_cons.
        destruct (decide (CacheMetadata.key m ∉ keys)) as [Hk|Hk].
        -- rewrite decide_True; [by rewrite IHr|].
           rewrite elem_of_cons. tauto.
        -- rewrite decide_False; [by rewrite IHr|].
           rewrite elem_of_cons. tauto.
      * rewrite decide_False; [done|]. rewrite elem_of_cons.
        destruct (decide (CacheMetadata.key m = key)); tauto.
    + intros k Hk. rewrite IHlookup by done.
      destruct (decide (k = key)) as [->|Hne].
      * rewrite (decide_True (P := key ∈ key :: keys)) by left.
        case_decide; [done|]. by apply lookup_clearCache_key.
      * rewrite lookup_clearCache_other by done.
        destruct (decide (k ∈ keys)) as [Hin|Hnotin].
        -- by rewrite decide_True by by right.
        -- rewrite decide_False; [done|]. rewrite elem_of_cons. tauto.
Qed.

Lemma foldl_delete_lookup (rows : list CacheMetadata.t) : ∀ s k,
  foldl (λ st item, delete (CacheMetadata.key item) st) s rows !! k
  = if decide (k ∈ CacheMetadata.key <$> rows) then None else s !! k.
Proof.
  induction rows as [|m rows IH]; intros s k; cbn [foldl].
  - by rewrite decide_False by by intros H; inversion H.
  - rewrite IH, fmap_cons. destruct (decide (k = CacheMetadata.key m)) as [->|Hne].
    + rewrite (decide_True (P := _ ∈ _ :: _)) by left.
      case_decide; [done|]. apply lookup_delete_eq.
    + rewrite lookup_delete_ne by done.
      destruct (decide (k ∈ CacheMetadata.key <$> rows)) as [Hin|Hnotin].
      * by rewrite decide_True by by right.
      * rewrite decide_False; [done|]. rewrite elem_of_cons. tauto.
Qed.

End SweepMore.

Section MirrorsMore.
Import CacheStorage CacheSpec.
Implicit Types (s : Storage) (key k : string).

Lemma key_determines_row (rows : list CacheMetadata.t) m m' :
  NoDup (CacheMetadata.key <$> rows) →
  m ∈ rows → m' ∈ rows → CacheMetadata.key m = CacheMetadata.key m' → m = m'.
Proof.
  induction rows as [|r rows IH]; [by intros _ H; inversion H|].
  rewrite fmap_cons, NoDup_cons. intros [Hnotin Hnodup].
  intros [->|Hm]%elem_of_cons [->|Hm']%elem_of_cons Hkey; [done|..].
  - exfalso. apply Hnotin. rewrite Hkey. apply list_elem_of_fmap. by exists m'.
  - exfalso. apply Hnotin. rewrite <- Hkey. apply list_elem_of_fmap. by exists m.
  - by apply IH.
Qed.

Lemma filter_agree {A} (P Q : A → Prop) `{!∀ x, Decision (P x), !∀ x, Decision (Q x)}
    (l : list A) :
  (∀ x, x ∈ l → P x ↔ Q x) → filter P l = filter Q l.
Proof.
  induction l as [|x l IH]; intros Hiff; [done|]. rewrite !filter_cons.
  rewrite IH by (intros y Hy; apply Hiff; by right).
  destruct (decide (P x)) as [HP|HP].
  - rewrite decide_True; [done|]. apply Hiff; [left|done].
  - rewrite decide_False; [done|]. intros HQ. apply HP, Hiff; [left|done].
Qed.

End MirrorsMore.

(** X5: On a storage whose index mirrors the entries, [clearExpiredCache] at
    time [now] removes exactly what is expired by the rows' timestamps: the
    index keeps the rows at most 24 hours old, in their order; the entry of
    every older row is deleted; the entries of the other rows, and every key
    the index does not know, stay as they are. *)
Theorem clearExpiredCache_removes_expired now (s : CacheStorage.Storage) :
  CacheSpec.indexMirrors s →
  let s' := CacheStorage.clearExpiredCache now s in
  let expired m := now - CacheStorage.CacheMetadata.timestamp m > CacheStorage.maxAge in
  CacheSpec.indexRows s' = filter (λ m, ¬ expired m) (CacheSpec.indexRows s) ∧
  (∀ m, m ∈ CacheSpec.indexRows s → expired m →
        s' !! CacheStorage.CacheMetadata.key m = None) ∧
  (∀ m, m ∈ CacheSpec.indexRows s → ¬ expired m →
        s' !! CacheStorage.CacheMetadata.key m = s !! CacheStorage.CacheMetadata.key m) ∧
  (∀ k, k ∉ CacheSpec.indexKeys s → k ≠ CacheStorage.CACHE_METADATA_KEY →
        s' !! k = s !! k).
Proof.
  intros Hinv s' expired.
  pose proof (indexMirrors_index_key s Hinv) as Hidx.
  destruct Hinv as ([rows Hrows] & Hnodup & Hiff).
  unfold CacheSpec.indexKeys in *. rewrite (indexRows_readable _ _ Hrows) in *.
  set (keys := CacheStorage.CacheMetadata.key <$> filter expired rows).
  assert (s' = foldl (λ st key, CacheStorage.clearCache key st) s keys) as Hs'.
  { unfold s', CacheStorage.clearExpiredCache. by rewrite Hrows. }
  assert (Forall (λ key, key ≠ CacheStorage.CACHE_METADATA_KEY) keys) as Hkeys.
  { apply Forall_forall. intros k (m & -> & [_ Hm]%list_elem_of_filter)%list_elem_of_fmap Heq.
    apply Hidx. rewrite <- Heq. apply list_elem_of_fmap. by exists m. }
  destruct (foldl_clearCache_exact keys s Hkeys) as [Hindex Hlookup].
  rewrite <- Hs', (indexRows_readable _ _ Hrows) in Hindex.
  rewrite <- Hs' in Hlookup.
  assert (∀ m, m ∈ rows → CacheStorage.CacheMetadata.key m ∈ keys ↔ expired m) as Hexp.
  { intros m Hm. split.
    - intros (m' & Hkey & [Hexp Hm']%list_elem_of_filter)%list_elem_of_fmap.
      by rewrite (key_determines_row rows m m' Hnodup Hm Hm' Hkey).
    - intros Hexpired. apply list_elem_of_fmap. exists m. split; [done|].
      by apply list_elem_of_filter. }
  assert (∀ m, m ∈ rows →
               CacheStorage.CacheMetadata.key m ≠ CacheStorage.CACHE_METADATA_KEY) as Hrowkey.
  { intros m Hm Heq. apply Hidx. rewrite <- Heq. apply list_elem_of_fmap. by exists m. }
  split_and!.
  - rewrite Hindex. apply filter_agree. intros m Hm. by rewrite (Hexp m Hm).
  - intros m Hm Hexpired. rewrite Hlookup by by apply Hrowkey.
    by rewrite decide_True by by apply Hexp.
  - intros m Hm Hfresh. rewrite Hlookup by by apply Hrowkey.
    by rewrite decide_False by by rewrite Hexp.
  - intros k Hk Hne. rewrite Hlookup by done. rewrite decide_False; [done|].
    intros (m & -> & [_ Hm]%list_elem_of_filter)%list_elem_of_fmap.
    apply Hk. apply list_elem_of_fmap. by exists m.
Qed.

Lemma clearExpiredCache_removes_expired_witness :
  CacheSpec.indexRows (CacheStorage.clearExpiredCache 86400001 Sample.cachedAtZero)
  = filter (λ m, ¬ 86400001 - CacheStorage.CacheMetadata.timestamp m > CacheStorage.maxAge)
           (CacheSpec.indexRows Sample.cachedAtZero).
Proof.
  apply (clearExpiredCache_removes_expired 86400001 Sample.cachedAtZero).
  apply (cacheArticles_mirrors Sample.headlinesKey Sample.page Sample.headlinesMeta 0 0 ∅).
  - vm_compute. discriminate.
  - reflexivity.
  - split_and!.
    + by exists [].
    + apply NoDup_nil_2.
    + intros k. split; [by intros H; inversion H|].
      intros [e He]. by rewrite lookup_empty in He.
Defined.

(** X6: On a storage whose index mirrors the entries, [clearAllCache] leaves
    no cache entry and no index: no key holds an entry, the index key is
    absent, the result mirrors again, keys outside the index are untouched,
    and a second [clearAllCache] changes nothing. *)
Theorem clearAllCache_empties (s : CacheStorage.Storage) :
  CacheSpec.indexMirrors s →
  let s' := CacheStorage.clearAllCache s in
  (∀ k, ¬ CacheSpec.hasEntry s' k) ∧
  s' !! CacheStorage.CACHE_METADATA_KEY = None ∧
  CacheSpec.indexMirrors s' ∧
  (∀ k, k ∉ CacheSpec.indexKeys s → k ≠ CacheStorage.CACHE_METADATA_KEY →
        s' !! k = s !! k) ∧
  CacheStorage.clearAllCache s' = s'.
Proof.
  intros Hinv s'.
  destruct Hinv as ([rows Hrows] & Hnodup & Hiff).
  unfold CacheSpec.indexKeys in *. rewrite (indexRows_readable _ _ Hrows) in *.
  assert (s' = delete CacheStorage.CACHE_METADATA_KEY
                 (foldl (λ st item, delete (CacheStorage.CacheMetadata.key item) st) s rows))
    as Hs'.
  { unfold s', CacheStorage.clearAllCache. by rewrite Hrows. }
  assert (s' !! CacheStorage.CACHE_METADATA_KEY = None) as Hindex.
  { rewrite Hs'. apply lookup_delete_eq. }
  assert (∀ k, k ≠ CacheStorage.CACHE_METADATA_KEY →
               s' !! k = if decide (k ∈ CacheStorage.CacheMetadata.key <$> rows)
                         then None else s !! k) as Hlookup.
  { intros k Hk. rewrite Hs', lookup_delete_ne by done. apply foldl_delete_lookup. }
  assert (∀ k, ¬ CacheSpec.hasEntry s' k) as Hnone.
  { intros k [e He]. destruct (decide (k = CacheStorage.CACHE_METADATA_KEY)) as [->|Hne].
    - by rewrite Hindex in He.
    - rewrite Hlookup in He by done. case_decide as Hk; [done|].
      apply Hk, Hiff. by exists e. }
  assert (CacheStorage.getCacheMetadata s' = CacheStorage.SMeta []) as Hmeta.
  { unfold CacheStorage.getCacheMetadata. by rewrite Hindex. }
  split_and!; [done..| | |].
  - split_and!.
    + by exists [].
    + unfold CacheSpec.indexKeys. rewrite (indexRows_readable _ _ Hmeta). apply NoDup_nil_2.
    + intros k. unfold CacheSpec.indexKeys. rewrite (indexRows_readable _ _ Hmeta).
      split; [by intros H; inversion H | by intros ?%Hnone].
  - intros k Hk Hne. rewrite Hlookup by done. by rewrite decide_False.
  - unfold CacheStorage.clearAllCache. rewrite Hmeta. simpl. by apply delete_id.
Qed.

Lemma clearAllCache_empties_witness :
  CacheStorage.clearAllCache Sample.cachedAtZero !! CacheStorage.CACHE_METADATA_KEY
  = None.
Proof.
  apply (clearAllCache_empties Sample.cachedAtZero).
  apply (cacheArticles_mirrors Sample.headlinesKey Sample.page Sample.headlinesMeta 0 0 ∅).
  - vm_compute. discriminate.
  - reflexivity.
  - split_and!.
    + by exists [].
    + apply NoDup_nil_2.
    + intros k. split; [by intros H; inversion H|].
      intros [e He]. by rewrite lookup_empty in He.
Defined.

(** X7: A read of the cache, on any storage: a payload that is returned comes
    from the entry under the key, which is at most 24 hours old, and the
    storage is as before; after a miss the key holds no entry; and reading
    again at the same time gives the same answer and changes nothing more. *)
Theorem getCachedArticles_reads_fresh_only key now (s : CacheStorage.Storage) :
  let read := CacheStorage.getCachedArticles key now s in
  (∀ data, read.1 = Some data →
     read.2 = s ∧
     ∃ e, s !! key = Some (CacheStorage.SEntry e) ∧
          CacheStorage.CacheEntry.data e = data ∧
          now - CacheStorage.CacheEntry.timestamp e ≤ 86400000) ∧
  (read.1 = None → ¬ CacheSpec.hasEntry read.2 key) ∧
  CacheStorage.getCachedArticles key now read.2 = read.
Proof.
  intros read. unfold read, CacheStorage.getCachedArticles.
  destruct (s !! key) as [[e|rows]|] eqn:Hs.
  - case_bool_decide as Hage; simpl.
    + destruct (clearCache_forgets key s) as [Hentry _]. split_and!; [done|done|].
      destruct (CacheStorage.clearCache key s !! key) as [[e'|rows']|] eqn:Hs'; [|done..].
      exfalso. apply Hentry. by exists e'.
    + split_and!.
      * intros data [= <-]. split; [done|]. exists e. split_and!; [done..|].
        rewrite maxAge_is_24h in Hage. lia.
      * done.
      * rewrite Hs. by rewrite bool_decide_eq_false_2.
  - simpl. split_and!; [done| |by rewrite Hs].
    intros _ [e He]. congruence.
  - simpl. split_and!; [done| |by rewrite Hs].
    intros _ [e He]. congruence.
Qed.

(** ** Content fetch layer, continued *)

Section FetchMore.
Import Types CacheStorage CacheSpec NewsApi NewsApiSpec.
Implicit Types (s : Storage) (env : Env).

Lemma getTopHeadlines_fetchPage category page useCache env s :
  getTopHeadlines category page useCache env s
  = fetchPage (headlinesKey category page) (headlinesMeta category page)
      "Failed to fetch news. Please check your connection."
      "An unexpected error occurred while fetching news." page useCache env s.
Proof. reflexivity. Qed.

Lemma searchNews_fetchPage query page useCache env s :
  searchNews query page useCache env s
  = fetchPage (searchKey query page) (searchMeta query page)
      "Failed to search news. Please check your connection."
      "An unexpected error occurred while searching." page useCache env s.
Proof. reflexivity. Qed.

Lemma getCachedArticles_other key k now s :
  k ≠ key → k ≠ CACHE_METADATA_KEY → (getCachedArticles key now s).2 !! k = s !! k.
Proof.
  intros Hk Hm. unfold getCachedArticles.
  destruct (s !! key) as [[e|rows]|]; [|done..].
  case_bool_decide; [|done]. by apply lookup_clearCache_other.
Qed.

Lemma getCachedArticles_miss key now s :
  (getCachedArticles key now s).1 = None → ¬ hasEntry (getCachedArticles key now s).2 key.
Proof.
  unfold getCachedArticles. destruct (s !! key) as [[e|rows]|] eqn:Hs.
  - case_bool_decide; [|done]. intros _. apply clearCache_forgets.
  - intros _ [e He]. simpl in He. congruence.
  - intros _ [e He]. simpl in He. congruence.
Qed.

Lemma orElse_nonempty message fallback : fallback ≠ "" → orElse message fallback ≠ "".
Proof. intros Hf. unfold orElse. destruct message; [by case_bool_decide | done]. Qed.

(** A fresh entry under the key ends the call before the network is asked. *)
Lemma fetchPage_hit key meta axiosDefault other env s e :
  s !! key = Some (SEntry e) →
  nowRead env - CacheEntry.timestamp e ≤ maxAge →
  fetchPage key meta axiosDefault other 1 true env s = (Fulfilled (CacheEntry.data e), s).
Proof.
  intros Hs Hage. unfold fetchPage. simpl.
  by rewrite (getCachedArticles_fresh _ _ _ _ Hs Hage).
Qed.

(** Only the key of the request and the index key can change. *)
Lemma fetchPage_other key meta axiosDefault other page useCache env s k :
  k ≠ key → k ≠ CACHE_METADATA_KEY →
  (fetchPage key meta axiosDefault other page useCache env s).2 !! k = s !! k.
Proof.
  intros Hk Hm. unfold fetchPage.
  pose proof (getCachedArticles_other key k (nowRead env) s Hk Hm) as Hread.
  destruct (useCache && bool_decide (page = 1));
    [destruct (getCachedArticles key (nowRead env) s) as [[cached|] s1]; simpl in Hread|];
    [done|..].
  all: destruct (network env); case_bool_decide; simpl;
    rewrite ?lookup_cacheArticles_other by done; try done.
  all: match goal with
       | |- context [getCachedArticles ?k0 ?t ?st] =>
           pose proof (getCachedArticles_other k0 k t st Hk Hm) as Hfall;
           destruct (getCachedArticles k0 t st) as [[stale|] s2]; simpl in *; congruence
       end.
Qed.

(** How a call can end. *)
Lemma fetchPage_outcome key meta axiosDefault other page useCache env s :
  axiosDefault ≠ "" → other ≠ "" →
  let result := fetchPage key meta axiosDefault other page useCache env s in
  (∀ data, network env = Resolves data → ∃ d, result.1 = Fulfilled d) ∧
  (∀ message, result.1 = Rejected message →
     failed (network env) ∧ message ≠ "" ∧ (page = 1 → ¬ hasEntry result.2 key)).
Proof.
  intros Hdefault Hother result. unfold result, fetchPage.
  destruct (useCache && bool_decide (page = 1));
    [destruct (getCachedArticles key (nowRead env) s) as [[cached|] s1]|].
  - simpl. split; [by eexists | done].
  - destruct (network env) as [data|message|] eqn:Hnet.
    + simpl. split; [by eexists | done].
    + split; [done|]. case_bool_decide as Hpage.
      * pose proof (getCachedArticles_miss key (nowFallback env) s1) as Hmiss.
        destruct (getCachedArticles key (nowFallback env) s1) as [[stale|] s2]; simpl in *;
          [done|]. intros message' [= <-]. split_and!; [done|by apply orElse_nonempty|auto].
      * simpl. intros message' [= <-]. split_and!; [done|by apply orElse_nonempty|done].
    + split; [done|]. case_bool_decide as Hpage.
      * pose proof (getCachedArticles_miss key (nowFallback env) s1) as Hmiss.
        destruct (getCachedArticles key (nowFallback env) s1) as [[stale|] s2]; simpl in *;
          [done|]. intros message' [= <-]. split_and!; [done|done|auto].
      * simpl. intros message' [= <-]. split_and!; done.
  - destruct (network env) as [data|message|] eqn:Hnet.
    + simpl. split; [by eexists | done].
    + split; [done|]. case_bool_decide as Hpage.
      * pose proof (getCachedArticles_miss key (nowFallback env) s) as Hmiss.
        destruct (getCachedArticles key (nowFallback env) s) as [[stale|] s2]; simpl in *;
          [done|]. intros message' [= <-]. split_and!; [done|by apply orElse_nonempty|auto].
      * simpl. intros message' [= <-]. split_and!; [done|by apply orElse_nonempty|done].
    + split; [done|]. case_bool_decide as Hpage.
      * pose proof (getCachedArticles_miss key (nowFallback env) s) as Hmiss.
        destruct (getCachedArticles key (nowFallback env) s) as [[stale|] s2]; simpl in *;
          [done|]. intros message' [= <-]. split_and!; [done|done|auto].
      * simpl. intros message' [= <-]. split_and!; done.
Qed.


End FetchMore.

(** X8: A fresh entry for page 1 ends [getTopHeadlines] and [searchNews]
    before the network is asked: whatever the network would answer, the cached
    page is returned and the storage is unchanged. *)
Theorem fresh_hit_skips_network category query env (s : CacheStorage.Storage) :
  (∀ e, s !! NewsApiSpec.headlinesKey category 1 = Some (CacheStorage.SEntry e) →
        NewsApi.nowRead env - CacheStorage.CacheEntry.timestamp e ≤ 86400000 →
        NewsApi.getTopHeadlines category 1 true env s
        = (NewsApi.Fulfilled (CacheStorage.CacheEntry.data e), s)) ∧
  (∀ e, s !! NewsApiSpec.searchKey query 1 = Some (CacheStorage.SEntry e) →
        NewsApi.nowRead env - CacheStorage.CacheEntry.timestamp e ≤ 86400000 →
        NewsApi.searchNews query 1 true env s
        = (NewsApi.Fulfilled (CacheStorage.CacheEntry.data e), s)).
Proof.
  split; intros e Hs Hage.
  - rewrite getTopHeadlines_fetchPage. apply fetchPage_hit; [done|].
    by rewrite maxAge_is_24h.
  - rewrite searchNews_fetchPage. apply fetchPage_hit; [done|].
    by rewrite maxAge_is_24h.
Qed.

Lemma fresh_hit_skips_network_witness :
  NewsApi.getTopHeadlines Types.general 1 true
    {| NewsApi.network := NewsApi.RejectsOther; NewsApi.nowRead := 86400000;
       NewsApi.nowPutEntry := 0; NewsApi.nowPutMeta := 0; NewsApi.nowFallback := 0 |}
    Sample.cachedAtZero
  = (NewsApi.Fulfilled Sample.page, Sample.cachedAtZero).
Proof.
  apply (proj1 (fresh_hit_skips_network Types.general "climate" _ Sample.cachedAtZero)
           {| CacheStorage.CacheEntry.data := Sample.page;
              CacheStorage.CacheEntry.timestamp := 0 |}).
  - by vm_compute.
  - simpl. lia.
Defined.

(** X9: A call of the fetch layer changes nothing in the storage but the key
    of its own request and the index: the cached pages of the other
    categories, pages and searches are as before. *)
Theorem fetch_touches_own_key_only category query page useCache env
    (s : CacheStorage.Storage) k :
  k ≠ CacheStorage.CACHE_METADATA_KEY →
  (k ≠ NewsApiSpec.headlinesKey category page →
   (NewsApi.getTopHeadlines category page useCache env s).2 !! k = s !! k) ∧
  (k ≠ NewsApiSpec.searchKey query page →
   (NewsApi.searchNews query page useCache env s).2 !! k = s !! k).
Proof.
  intros Hm. split; intros Hk.
  - rewrite getTopHeadlines_fetchPage. by apply fetchPage_other.
  - rewrite searchNews_fetchPage. by apply fetchPage_other.
Qed.

Lemma fetch_touches_own_key_only_witness :
  (NewsApi.getTopHeadlines Types.sports 1 true Sample.offlineAfterExpiry
     Sample.cachedAtZero).2 !! Sample.headlinesKey
  = Sample.cachedAtZero !! Sample.headlinesKey.
Proof.
  apply (fetch_touches_own_key_only Types.sports "climate" 1 true
           Sample.offlineAfterExpiry Sample.cachedAtZero Sample.headlinesKey).
  - vm_compute. discriminate.
  - vm_compute. discriminate.
Defined.

(** X10: How a call of the fetch layer can end.  When the network answers, the
    call is fulfilled.  When the call is rejected, the network failed, the
    error message is not empty, and for page 1 the key of the request holds no
    cache entry afterwards. *)
Theorem fetch_rejects_only_without_answer category query page useCache env
    (s : CacheStorage.Storage) :
  let headlines := NewsApi.getTopHeadlines category page useCache env s in
  let search := NewsApi.searchNews query page useCache env s in
  (∀ data, NewsApi.network env = NewsApi.Resolves data →
     (∃ d, headlines.1 = NewsApi.Fulfilled d) ∧ (∃ d, search.1 = NewsApi.Fulfilled d)) ∧
  (∀ message, headlines.1 = NewsApi.Rejected message →
     NewsApiSpec.failed (NewsApi.network env) ∧ message ≠ "" ∧
     (page = 1 →
      ¬ CacheSpec.hasEntry headlines.2 (NewsApiSpec.headlinesKey category page))) ∧
  (∀ message, search.1 = NewsApi.Rejected message →
     NewsApiSpec.failed (NewsApi.network env) ∧ message ≠ "" ∧
     (page = 1 →
      ¬ CacheSpec.hasEntry search.2 (NewsApiSpec.searchKey query page))).
Proof.
  intros headlines search.
  destruct (fetchPage_outcome (NewsApiSpec.headlinesKey category page)
              (NewsApiSpec.headlinesMeta category page)
              "Failed to fetch news. Please check your connection."
              "An unexpected error occurred while fetching news."
              page useCache env s ltac:(done) ltac:(done)) as [Hh1 Hh2].
  destruct (fetchPage_outcome (NewsApiSpec.searchKey query page)
              (NewsApiSpec.searchMeta query page)
              "Failed to search news. Please check your connection."
              "An unexpected error occurred while searching."
              page useCache env s ltac:(done) ltac:(done)) as [Hs1 Hs2].
  split_and!.
  - intros data Hnet. split; [by apply (Hh1 data) | by apply (Hs1 data)].
  - apply Hh2.
  - apply Hs2.
Qed.



(** X12: The fetch layer keeps the index a mirror of the entries: whatever the
    request, the flag, the network and the clock, a call on a mirrored storage
    leaves a mirrored storage. *)
Theorem fetch_keeps_index_mirror category query page useCache env
    (s : CacheStorage.Storage) :
  CacheSpec.indexMirrors s →
  CacheSpec.indexMirrors (NewsApi.getTopHeadlines category page useCache env s).2 ∧
  CacheSpec.indexMirrors (NewsApi.searchNews query page useCache env s).2.
Proof.
  intros Hinv. split; [by apply getTopHeadlines_mirrors | by apply searchNews_mirrors].
Qed.

Lemma fetch_keeps_index_mirror_witness :
  CacheSpec.indexMirrors
    (NewsApi.getTopHeadlines Types.general 1 true Sample.offlineAfterExpiry ∅).2 ∧
  CacheSpec.indexMirrors
    (NewsApi.searchNews "climate" 1 true Sample.offlineAfterExpiry ∅).2.
Proof.
  apply (fetch_keeps_index_mirror Types.general "climate" 1 true
           Sample.offlineAfterExpiry ∅).
  split_and!.
  - by exists [].
  - apply NoDup_nil_2.
  - intros k. split; [by intros H; inversion H|].
    intros [e He]. by rewrite lookup_empty in He.
Defined.

(** X13: With [useCache = false] the cache is still written and still
    consulted after a failure: a successful fetch of page 1 stores the page
    under the key and puts its row first in the index, dropping the older rows
    of the key; a failed fetch returns the entry under the key when it is at
    most 24 hours old. *)
Theorem refresh_still_uses_cache category env (s : CacheStorage.Storage) :
  let key := NewsApiSpec.headlinesKey category 1 in
  (∀ data rows,
     NewsApi.network env = NewsApi.Resolves data →
     CacheStorage.getCacheMetadata s = CacheStorage.SMeta rows →
     ∃ s', NewsApi.getTopHeadlines category 1 false env s = (NewsApi.Fulfilled data, s') ∧
           s' !! key
           = Some (CacheStorage.SEntry
                     {| CacheStorage.CacheEntry.data := data;
                        CacheStorage.CacheEntry.timestamp := NewsApi.nowPutEntry env |}) ∧
           CacheSpec.indexRows s'
           = {| CacheStorage.CacheMetadata.key := key;
                CacheStorage.CacheMetadata.timestamp := NewsApi.nowPutMeta env;
                CacheStorage.CacheMetadata.category :=
                  Some (Types.Category_toString category);
                CacheStorage.CacheMetadata.query := None |}
             :: filter (λ m, CacheStorage.CacheMetadata.key m ≠ key) rows) ∧
  (∀ e,
     NewsApiSpec.failed (NewsApi.network env) →
     s !! key = Some (CacheStorage.SEntry e) →
     NewsApi.nowFallback env - CacheStorage.CacheEntry.timestamp e ≤ 86400000 →
     NewsApi.getTopHeadlines category 1 false env s
     = (NewsApi.Fulfilled (CacheStorage.CacheEntry.data e), s)).
Proof.
  intros key. split.
  - intros data rows Hnet Hrows. by apply getTopHeadlines_refresh_overwrites.
  - intros e Hnet Hs Hage. apply getTopHeadlines_refresh_falls_back; [done..|].
    by rewrite maxAge_is_24h.
Qed.

Lemma refresh_still_uses_cache_witness :
  NewsApi.getTopHeadlines Types.general 1 false
    {| NewsApi.network := NewsApi.RejectsOther; NewsApi.nowRead := 0;
       NewsApi.nowPutEntry := 0; NewsApi.nowPutMeta := 0; NewsApi.nowFallback := 86400000 |}
    Sample.cachedAtZero
  = (NewsApi.Fulfilled Sample.page, Sample.cachedAtZero).
Proof.
  apply (proj2 (refresh_still_uses_cache Types.general _ Sample.cachedAtZero)
           {| CacheStorage.CacheEntry.data := Sample.page;
              CacheStorage.CacheEntry.timestamp := 0 |}).
  - exact I.
  - by vm_compute.
  - simpl. lia.
Defined.

(** ** Reading event log, continued *)

Section HistoryMore.
Import Types ReadingHistoryService HistorySpec.
Implicit Types (s : Storage) (history : list ReadingHistoryItem) (u : string).

Lemma hasBeenRead_entriesFor u s :
  hasBeenRead u s = true ↔ entriesFor u (getHistory s) ≠ [].
Proof.
  unfold hasBeenRead, entriesFor. induction (getHistory s) as [|item rest IH]; [done|].
  simpl. rewrite filter_cons. case_bool_decide as Hu; simpl.
  - by rewrite decide_True.
  - by rewrite decide_False.
Qed.

Lemma getReadingTime_none u s :
  entriesFor u (getHistory s) = [] → getReadingTime u s = 0.
Proof.
  unfold getReadingTime, entriesFor. induction (getHistory s) as [|item rest IH]; [done|].
  rewrite filter_cons. simpl. case_bool_decide as Hu.
  - by rewrite decide_True.
  - rewrite decide_False by done. apply IH.
Qed.

Lemma getReadingTime_ext u s s' :
  entriesFor u (getHistory s') = entriesFor u (getHistory s) →
  getReadingTime u s' = getReadingTime u s.
Proof.
  unfold getReadingTime, entriesFor.
  assert (∀ history,
    List.find (λ item, bool_decide (url (article item) = u)) history
    = head (filter (λ item, url (article item) = u) history)) as Hfind.
  { induction history as [|item rest IH]; [done|]. simpl. rewrite filter_cons.
    case_bool_decide; [by rewrite decide_True | by rewrite decide_False]. }
  rewrite !Hfind. by intros ->.
Qed.

Lemma uniqueUrls_run c s : uniqueUrls (getHistory s) → uniqueUrls (getHistory (run c s)).
Proof.
  destruct c; simpl; intros H.
  - by apply uniqueUrls_addToHistory.
  - by apply uniqueUrls_removeFromHistory.
  - apply uniqueUrls_clearHistory.
Qed.

Lemma bounded_run c s :
  (length (getHistory s) ≤ MAX_HISTORY_ITEMS)%nat →
  (length (getHistory (run c s)) ≤ MAX_HISTORY_ITEMS)%nat.
Proof.
  destruct c; simpl; intros H.
  - rewrite getHistory_addToHistory, length_take. lia.
  - unfold removeFromHistory. rewrite getHistory_insert.
    etrans; [apply length_filter|done].
  - unfold clearHistory, getHistory. rewrite lookup_delete_eq. simpl. lia.
Qed.

End HistoryMore.

(** X14: A recorded article is found again: right after [addToHistory], on any
    storage, [hasBeenRead] answers true for its URL, [getReadingTime] returns
    the seconds just recorded, and the entry is the most recent one. *)
Theorem recorded_article_is_found a seconds cat now (s : ReadingHistoryService.Storage) :
  let s' := ReadingHistoryService.addToHistory a seconds cat now s in
  ReadingHistoryService.hasBeenRead (Types.url a) s' = true ∧
  ReadingHistoryService.getReadingTime (Types.url a) s' = seconds ∧
  ReadingHistoryService.getRecentHistory 1 s' = [HistorySpec.entry a seconds cat now].
Proof.
  intros s'. unfold ReadingHistoryService.hasBeenRead,
    ReadingHistoryService.getReadingTime, ReadingHistoryService.getRecentHistory.
  unfold s'. rewrite getHistory_addToHistory.
  change ReadingHistoryService.MAX_HISTORY_ITEMS with (S 99). rewrite firstn_cons.
  simpl. rewrite bool_decide_eq_true_2 by done. split_and!; [done..|].
  by rewrite take_0.
Qed.

(** X15: [removeFromHistory] forgets one article and nothing else: its URL is
    no longer read and its reading time is 0, while for every other URL the
    entries, [hasBeenRead] and [getReadingTime] are as before; the log keeps
    its order, and removing again changes nothing. *)
Theorem removed_article_is_forgotten u (s : ReadingHistoryService.Storage) :
  let s' := ReadingHistoryService.removeFromHistory u s in
  ReadingHistoryService.hasBeenRead u s' = false ∧
  ReadingHistoryService.getReadingTime u s' = 0 ∧
  (∀ u', u' ≠ u →
     HistorySpec.entriesFor u' (ReadingHistoryService.getHistory s')
     = HistorySpec.entriesFor u' (ReadingHistoryService.getHistory s) ∧
     ReadingHistoryService.hasBeenRead u' s' = ReadingHistoryService.hasBeenRead u' s ∧
     ReadingHistoryService.getReadingTime u' s' = ReadingHistoryService.getReadingTime u' s) ∧
  ReadingHistoryService.getHistory s' `sublist_of` ReadingHistoryService.getHistory s ∧
  ReadingHistoryService.removeFromHistory u s' = s'.
Proof.
  intros s'.
  assert (ReadingHistoryService.getHistory s'
          = filter (λ item, Types.url (ReadingHistoryService.article item) ≠ u)
                   (ReadingHistoryService.getHistory s)) as Hhistory.
  { unfold s', ReadingHistoryService.removeFromHistory. apply getHistory_insert. }
  assert (HistorySpec.entriesFor u (ReadingHistoryService.getHistory s') = []) as Hgone.
  { rewrite Hhistory. unfold HistorySpec.entriesFor.
    destruct (filter _ (filter _ _)) as [|item items] eqn:Hf; [done|exfalso].
    assert (item ∈ filter (λ item, Types.url (ReadingHistoryService.article item) = u)
                   (filter (λ item, Types.url (ReadingHistoryService.article item) ≠ u)
                           (ReadingHistoryService.getHistory s)))
      as [Heq [Hneq _]%list_elem_of_filter]%list_elem_of_filter by (rewrite Hf; left).
    done. }
  assert (∀ u', u' ≠ u →
     HistorySpec.entriesFor u' (ReadingHistoryService.getHistory s')
     = HistorySpec.entriesFor u' (ReadingHistoryService.getHistory s)) as Hothers.
  { intros u' Hne. rewrite Hhistory. unfold HistorySpec.entriesFor.
    rewrite list_filter_filter. apply filter_agree. intros item _.
    split; [by intros [? _] | intros Hu'; split; [done | congruence]]. }
  split_and!.
  - destruct (ReadingHistoryService.hasBeenRead u s') eqn:Hread; [|done].
    by apply hasBeenRead_entriesFor in Hread.
  - by apply getReadingTime_none.
  - intros u' Hne. specialize (Hothers u' Hne). split_and!; [done| |].
    + destruct (ReadingHistoryService.hasBeenRead u' s') eqn:H1;
        destruct (ReadingHistoryService.hasBeenRead u' s) eqn:H2; try done.
      * apply hasBeenRead_entriesFor in H1. rewrite Hothers in H1.
        apply hasBeenRead_entriesFor in H1. congruence.
      * apply hasBeenRead_entriesFor in H2. rewrite <- Hothers in H2.
        apply hasBeenRead_entriesFor in H2. congruence.
    + by apply getReadingTime_ext.
  - rewrite Hhistory. apply sublist_filter.
  - unfold ReadingHistoryService.removeFromHistory at 1. rewrite Hhistory.
    unfold s', ReadingHistoryService.removeFromHistory. rewrite insert_insert_eq.
    f_equal. rewrite list_filter_filter. apply filter_agree. intros item _. tauto.
Qed.

(** X16: [clearHistory] resets the service: the log is empty, the statistics
    are those of [getEmptyStats], and no article counts as read. *)
Theorem clearHistory_resets tz now u (s : ReadingHistoryService.Storage) :
  let s' := ReadingHistoryService.clearHistory s in
  ReadingHistoryService.getHistory s' = [] ∧
  ReadingHistoryService.getStats tz s' now = ReadingHistoryService.getEmptyStats ∧
  ReadingHistoryService.hasBeenRead u s' = false ∧
  ReadingHistoryService.getReadingTime u s' = 0 ∧
  ReadingHistoryService.getRecentHistory 10 s' = [].
Proof.
  intros s'.
  assert (ReadingHistoryService.getHistory s' = []) as Hempty.
  { unfold s', ReadingHistoryService.clearHistory, ReadingHistoryService.getHistory.
    by rewrite lookup_delete_eq. }
  unfold ReadingHistoryService.getStats, ReadingHistoryService.hasBeenRead,
    ReadingHistoryService.getReadingTime, ReadingHistoryService.getRecentHistory.
  by rewrite Hempty.
Qed.

(** X17: The log stays well-formed under every sequence of writes: starting
    from a log without repeated URLs and with at most 100 entries (the empty
    storage, for one), the log after any sequence of [addToHistory],
    [removeFromHistory] and [clearHistory] has no repeated URL and at most 100
    entries. *)
Theorem history_stays_unique_and_bounded (cs : list HistorySpec.Call)
    (s : ReadingHistoryService.Storage) :
  HistorySpec.uniqueUrls (ReadingHistoryService.getHistory s) →
  (length (ReadingHistoryService.getHistory s) ≤ 100)%nat →
  HistorySpec.uniqueUrls (ReadingHistoryService.getHistory (HistorySpec.runAll cs s)) ∧
  (length (ReadingHistoryService.getHistory (HistorySpec.runAll cs s)) ≤ 100)%nat.
Proof.
  revert s. induction cs as [|c cs IH]; intros s Huniq Hlen; [done|].
  apply IH; [by apply uniqueUrls_run | by apply bounded_run].
Qed.

Lemma history_stays_unique_and_bounded_witness :
  let cs := [ HistorySpec.Record_ Sample.story 25 "science" 1000;
              HistorySpec.Record_ Sample.story 40 "science" 2000;
              HistorySpec.Remove "https://example.org/other";
              HistorySpec.Record_ (Sample.article "https://example.org/two" "Wired")
                12 "technology" 3000 ] in
  HistorySpec.uniqueUrls (ReadingHistoryService.getHistory (HistorySpec.runAll cs ∅)) ∧
  (length (ReadingHistoryService.getHistory (HistorySpec.runAll cs ∅)) ≤ 100)%nat.
Proof.
  intros cs. apply (history_stays_unique_and_bounded cs ∅).
  - apply NoDup_nil_2.
  - unfold ReadingHistoryService.getHistory. rewrite lookup_empty. simpl. lia.
Defined.

(** X18: Recording an article evicts nothing while there is room: when the log
    holds fewer than 100 entries, or already holds the URL, the new log is the
    new entry followed by the old log without the previous entry for the URL,
    and the entries of every other URL are exactly as before. *)
Theorem addToHistory_keeps_the_others a seconds cat now
    (s : ReadingHistoryService.Storage) :
  (length (ReadingHistoryService.getHistory s) < 100)%nat ∨
  (length (ReadingHistoryService.getHistory s) ≤ 100)%nat ∧
  ReadingHistoryService.hasBeenRead (Types.url a) s = true →
  let s' := ReadingHistoryService.addToHistory a seconds cat now s in
  ReadingHistoryService.getHistory s'
  = HistorySpec.entry a seconds cat now
    :: HistorySpec.withoutFirst (Types.url a) (ReadingHistoryService.getHistory s) ∧
  ∀ u', u' ≠ Types.url a →
    HistorySpec.entriesFor u' (ReadingHistoryService.getHistory s')
    = HistorySpec.entriesFor u' (ReadingHistoryService.getHistory s).
Proof.
  intros Hroom s'.
  assert (ReadingHistoryService.getHistory s'
          = HistorySpec.entry a seconds cat now
            :: HistorySpec.withoutFirst (Types.url a) (ReadingHistoryService.getHistory s))
    as Hhistory.
  { unfold s'. rewrite getHistory_addToHistory. apply take_ge. simpl.
    unfold ReadingHistoryService.MAX_HISTORY_ITEMS.
    assert (length (HistorySpec.withoutFirst (Types.url a)
                      (ReadingHistoryService.getHistory s)) < 100)%nat; [|lia].
    destruct Hroom as [Hlt|[Hle Hread]].
    - eapply Nat.le_lt_trans; [apply sublist_length, withoutFirst_sublist | done].
    - apply hasBeenRead_entriesFor in Hread.
      assert (length (HistorySpec.withoutFirst (Types.url a)
                        (ReadingHistoryService.getHistory s))
              < length (ReadingHistoryService.getHistory s))%nat; [|lia].
      clear -Hread. induction (ReadingHistoryService.getHistory s) as [|item rest IH];
        [done|]. simpl. unfold HistorySpec.entriesFor in *. rewrite filter_cons in Hread.
      case_bool_decide as Hu; [lia|]. rewrite decide_False in Hread by done.
      simpl. specialize (IH Hread). lia. }
  split; [done|]. intros u' Hne. rewrite Hhistory.
  unfold HistorySpec.entriesFor at 1. rewrite filter_cons.
  rewrite decide_False by (simpl; congruence).
  by apply entriesFor_withoutFirst_other.
Qed.

Lemma addToHistory_keeps_the_others_witness :
  ReadingHistoryService.getHistory
    (ReadingHistoryService.addToHistory Sample.story 40 "science" 2000 Sample.readLog)
  = HistorySpec.entry Sample.story 40 "science" 2000
    :: HistorySpec.withoutFirst (Types.url Sample.story)
         (ReadingHistoryService.getHistory Sample.readLog).
Proof.
  apply (addToHistory_keeps_the_others Sample.story 40 "science" 2000 Sample.readLog).
  left. vm_compute. lia.
Defined.

(** ** Analytics reducer, continued *)

Section StatsMore.
Import Types ReadingHistoryService StatsSpec.
Implicit Types (history : list ReadingHistoryItem) (table : list (string * nat)).

Lemma filter_length_mono {A} (P Q : A → Prop)
    `{!∀ x, Decision (P x), !∀ x, Decision (Q x)} (l : list A) :
  (∀ x, P x → Q x) → (length (filter P l) ≤ length (filter Q l))%nat.
Proof.
  intros Himpl. induction l as [|x l IH]; [done|]. rewrite !filter_cons.
  destruct (decide (P x)) as [HP|HP].
  - rewrite decide_True by auto. simpl. lia.
  - case_decide; simpl; lia.
Qed.






End StatsMore.

(** X19: The sliding windows nest: for every log and every time, the events of
    the last 24 hours are among those of the last 7 days, these among those of
    the last 30 days, and the total is the length of the log. *)
Theorem reading_windows_nest tz (s : ReadingHistoryService.Storage) now :
  let stats := ReadingHistoryService.getStats tz s now in
  (ReadingHistoryService.articlesReadToday stats
   ≤ ReadingHistoryService.articlesReadThisWeek stats)%nat ∧
  (ReadingHistoryService.articlesReadThisWeek stats
   ≤ ReadingHistoryService.articlesReadThisMonth stats)%nat ∧
  (ReadingHistoryService.articlesReadThisMonth stats
   ≤ ReadingHistoryService.totalArticlesRead stats)%nat ∧
  ReadingHistoryService.totalArticlesRead stats
  = length (ReadingHistoryService.getHistory s).
Proof.
  intros stats. unfold stats, ReadingHistoryService.getStats.
  case_bool_decide as Hlen; [simpl; by rewrite Hlen|].
  cbn [ReadingHistoryService.articlesReadToday ReadingHistoryService.articlesReadThisWeek
       ReadingHistoryService.articlesReadThisMonth ReadingHistoryService.totalArticlesRead].
  split_and!; [| | |done].
  - apply filter_length_mono. intros item. unfold ReadingHistoryService.oneDayMs. lia.
  - apply filter_length_mono. intros item. unfold ReadingHistoryService.oneDayMs. lia.
  - apply length_filter.
Qed.


(** ** Longest streak *)

Section LongestStreak.
Import Types ReadingHistoryService StatsSpec.
Variable tz : Z.
Implicit Types (history : list ReadingHistoryItem) (days : list DateKey).










End LongestStreak.

Section StreakBounds.
Import Types ReadingHistoryService StatsSpec.
Variable tz : Z.
Implicit Types (history : list ReadingHistoryItem) (days : list DateKey).




End StreakBounds.



(** ** Histograms *)

Section Histograms.
Import Types ReadingHistoryService StatsSpec.
Variable tz : Z.
Implicit Types (history : list ReadingHistoryItem).

Lemma getHours_range t : 0 ≤ getHours tz t < 24.
Proof.
  unfold getHours, oneDayMs.
  pose proof (Z.mod_pos_bound (t + tz) (24 * 60 * 60 * 1000) ltac:(lia)) as Hmod.
  split.
  - apply Z.div_pos; lia.
  - apply Z.div_lt_upper_bound; lia.
Qed.

(** Counting into a map: every event adds one under its key. *)
Lemma lookup_foldl_count {K} `{Countable K} (key : ReadingHistoryItem → K) history :
  ∀ (o : gmap K nat) (k : K),
  foldl (λ (o : gmap K nat) item, <[key item := S (default 0%nat (o !! key item))]> o)
        o history !! k
  = if decide (countWhere (λ item, key item = k) history = 0%nat) then o !! k
    else Some (default 0 (o !! k) + countWhere (λ item, key item = k) history)%nat.
Proof.
  unfold countWhere. induction history as [|item rest IH]; intros o k; [done|].
  cbn [foldl]. rewrite IH, filter_cons. destruct (decide (key item = k)) as [<-|Hne].
  - rewrite lookup_insert_eq. cbn [length default].
    rewrite (decide_False (P := S _ = 0%nat)) by done.
    case_decide as Hc; [rewrite Hc|]; simpl; f_equal; lia.
  - by rewrite lookup_insert_ne.
Qed.

Lemma lookup_initial_hours (n : nat) : ∀ (o : gmap Z nat) (a : nat) (h : Z),
  foldl (λ (o : gmap Z nat) (i : nat), <[Z.of_nat i := 0%nat]> o) o (seq a n) !! h
  = if decide (Z.of_nat a ≤ h < Z.of_nat a + Z.of_nat n) then Some 0%nat else o !! h.
Proof.
  induction n as [|n IH]; intros o a h; cbn [seq foldl].
  - case_decide; [lia|done].
  - rewrite IH. destruct (decide (h = Z.of_nat a)) as [->|Hne].
    + rewrite lookup_insert_eq. repeat case_decide; try done; lia.
    + rewrite lookup_insert_ne by done.
      repeat case_decide; try done; lia.
Qed.

Lemma getReadingByHour_lookup history h :
  getReadingByHour tz history !! h
  = if decide (0 ≤ h < 24)
    then Some (countWhere (λ item, getHours tz (readAt item) = h) history)
    else None.
Proof.
  unfold getReadingByHour.
  rewrite (lookup_foldl_count (λ item, getHours tz (readAt item))).
  rewrite (lookup_initial_hours 24 ∅ 0 h). rewrite lookup_empty.
  change (Z.of_nat 0 ≤ h < Z.of_nat 0 + Z.of_nat 24) with (0 ≤ h < 0 + 24).
  destruct (decide (0 ≤ h < 24)) as [Hin|Hout].
  - rewrite (decide_True (P := 0 ≤ h < 0 + 24)) by lia. simpl.
    case_decide as Hc; [by rewrite Hc|done].
  - rewrite (decide_False (P := 0 ≤ h < 0 + 24)) by lia.
    rewrite decide_True; [done|]. unfold countWhere.
    destruct (filter _ history) as [|item items] eqn:Hf; [done|exfalso].
    assert (item ∈ filter (λ item, getHours tz (readAt item) = h) history)
      as [Hh _]%list_elem_of_filter by (rewrite Hf; left).
    pose proof (getHours_range (readAt item)). lia.
Qed.




End Histograms.

(** X22: Each of the 24 hours of the local day has a key in the hour table of
    a non-empty log, holding the number of events read in that hour; the table
    has no other key. *)
Theorem hour_table_counts_each_hour tz (s : ReadingHistoryService.Storage) now (h : Z) :
  ReadingHistoryService.getHistory s ≠ [] →
  ReadingHistoryService.readingByHour (ReadingHistoryService.getStats tz s now) !! h
  = if decide (0 ≤ h < 24)
    then Some (StatsSpec.countWhere
                 (λ item, ReadingHistoryService.getHours tz
                            (ReadingHistoryService.readAt item) = h)
                 (ReadingHistoryService.getHistory s))
    else None.
Proof.
  intros Hlog. unfold ReadingHistoryService.getStats.
  rewrite bool_decide_eq_false_2 by by destruct (ReadingHistoryService.getHistory s).
  cbn [ReadingHistoryService.readingByHour]. apply getReadingByHour_lookup.
Qed.

Lemma hour_table_counts_each_hour_witness :
  ReadingHistoryService.getHistory Sample.readLog ≠ [] ∧
  ReadingHistoryService.readingByHour
    (ReadingHistoryService.getStats 3600000 Sample.readLog (Sample.noon 19700)) !! 13
  = Some 4%nat.
Proof.
  split; [done|].
  rewrite (hour_table_counts_each_hour 3600000 Sample.readLog (Sample.noon 19700) 13)
    by done.
  reflexivity.
Defined.



(** ** Article screen *)



(** ** Home screen *)

Section HomeScreenFacts.
Import Types CacheStorage NewsApi NewsApiSpec HomeScreen HomeScreenSpec.

Lemma fetchArticles_display category isRefreshing page env st s :
  fetchArticles category isRefreshing page env (st, s)
  = (display page (getTopHeadlines category page true env s).1 st,
     (getTopHeadlines category page true env s).2).
Proof.
  unfold fetchArticles.
  destruct (getTopHeadlines category page true env s) as [[response|message] s'];
    destruct isRefreshing; simpl; unfold display; destruct (bool_decide (page = 1)); reflexivity.
Qed.

Lemma searchArticles_display query isRefreshing page env st s :
  searchArticles query isRefreshing page env (st, s)
  = (display page (searchNews query page true env s).1 st,
     (searchNews query page true env s).2).
Proof.
  unfold searchArticles.
  destruct (searchNews query page true env s) as [[response|message] s'];
    destruct isRefreshing; simpl; unfold display; destruct (bool_decide (page = 1)); reflexivity.
Qed.

(** The request of a handler, through the shared body of the two API
    functions. *)
Lemma request_fetchPage st page env s :
  ∃ meta axiosDefault other,
    axiosDefault ≠ "" ∧ other ≠ "" ∧
    request st page env s
    = fetchPage (feedKey st page) meta axiosDefault other page true env s.
Proof.
  unfold request, feedKey. destruct (isSearchMode st && truthy (searchQuery st)).
  - eexists _, _, _. split_and!; [| |apply searchNews_fetchPage]; done.
  - eexists _, _, _. split_and!; [| |apply getTopHeadlines_fetchPage]; done.
Qed.

Lemma handleRefresh_display env st s :
  handleRefresh env (st, s)
  = (display 1 (request st 1 env s).1 (setHasMore true (setCurrentPage 1 st)),
     (request st 1 env s).2).
Proof.
  unfold handleRefresh, request.
  destruct (isSearchMode st && truthy (searchQuery st));
    by rewrite ?searchArticles_display, ?fetchArticles_display.
Qed.

Lemma handleRetry_display env st s :
  handleRetry env (st, s)
  = (display 1 (request st 1 env s).1 (setHasMore true (setCurrentPage 1 st)),
     (request st 1 env s).2).
Proof.
  unfold handleRetry, request.
  destruct (isSearchMode st && truthy (searchQuery st));
    by rewrite ?searchArticles_display, ?fetchArticles_display.
Qed.

Lemma handleSearch_display query env st s :
  handleSearch query env (st, s)
  = (display 1 (searchNews query 1 true env s).1
       (setHasMore true (setCurrentPage 1 (setIsSearchMode true (setSearchQuery query st)))),
     (searchNews query 1 true env s).2).
Proof. unfold handleSearch. by rewrite searchArticles_display. Qed.

Lemma canLoadMore_guard st :
  canLoadMore st ↔
  negb (loadingMore st) && hasMore st && negb (loading st)
    && negb (truthyError (error st)) = true.
Proof.
  unfold canLoadMore. split.
  - by intros (-> & -> & -> & ->).
  - by destruct (loadingMore st), (hasMore st), (loading st), (truthyError (error st)).
Qed.

Lemma handleLoadMore_display env st s :
  canLoadMore st →
  handleLoadMore env (st, s)
  = (display (currentPage st + 1) (request st (currentPage st + 1) env s).1 st,
     (request st (currentPage st + 1) env s).2).
Proof.
  intros Hcan%canLoadMore_guard. unfold handleLoadMore, request. rewrite Hcan.
  destruct (isSearchMode st && truthy (searchQuery st));
    by rewrite ?searchArticles_display, ?fetchArticles_display.
Qed.

Lemma handleLoadMore_idle env st s : ¬ canLoadMore st → handleLoadMore env (st, s) = (st, s).
Proof.
  rewrite canLoadMore_guard. intros Hcan%not_true_is_false.
  unfold handleLoadMore. by rewrite Hcan.
Qed.

(** A request for a later page is answered by the network alone. *)
Lemma fetchPage_later key meta axiosDefault other page useCache env s :
  page ≠ 1 →
  fetchPage key meta axiosDefault other page useCache env s
  = (live axiosDefault other (network env), s).
Proof.
  intros Hpage. unfold fetchPage.
  rewrite (bool_decide_eq_false_2 (page = 1)) by done. rewrite andb_false_r.
  by destruct (network env).
Qed.

Lemma ceilDiv20_lt page n : page < ceilDiv20 n ↔ 20 * page < n.
Proof.
  unfold ceilDiv20.
  pose proof (Z.div_mod (- n) 20 ltac:(lia)) as Hdm.
  pose proof (Z.mod_pos_bound (- n) 20 ltac:(lia)) as Hmod.
  lia.
Qed.


Lemma request_hit st env s e :
  s !! feedKey st 1 = Some (SEntry e) →
  nowRead env - CacheEntry.timestamp e ≤ maxAge →
  request st 1 env s = (Fulfilled (CacheEntry.data e), s).
Proof.
  intros Hs Hage.
  destruct (request_fetchPage st 1 env s) as (meta & axiosDefault & other & _ & _ & ->).
  by apply fetchPage_hit.
Qed.

Lemma request_later st page env s :
  page ≠ 1 →
  ∃ axiosDefault other,
    axiosDefault ≠ "" ∧ other ≠ "" ∧
    request st page env s = (live axiosDefault other (network env), s).
Proof.
  intros Hpage.
  destruct (request_fetchPage st page env s)
    as (meta & axiosDefault & other & Ha & Ho & ->).
  exists axiosDefault, other. split_and!; [done..|]. by apply fetchPage_later.
Qed.

Lemma request_unanswered st env s :
  failed (network env) → s !! feedKey st 1 = None →
  ∃ message, message ≠ "" ∧ request st 1 env s = (Rejected message, s).
Proof.
  intros Hnet Hs.
  destruct (request_fetchPage st 1 env s)
    as (meta & axiosDefault & other & Ha & Ho & ->).
  unfold fetchPage. simpl. rewrite !getCachedArticles_absent by done.
  destruct (network env) as [data|message|]; [done| |].
  - eexists. split; [|done]. by apply orElse_nonempty.
  - by eexists.
Qed.

Lemma request_rejected st page env s message :
  (request st page env s).1 = Rejected message → message ≠ "".
Proof.
  destruct (request_fetchPage st page env s)
    as (meta & axiosDefault & other & Ha & Ho & ->).
  intros Hr. by apply (fetchPage_outcome _ meta _ _ page true env s Ha Ho) in Hr as (_ & ? & _).
Qed.

Lemma searchNews_rejected query page env s message :
  (searchNews query page true env s).1 = Rejected message → message ≠ "".
Proof.
  rewrite searchNews_fetchPage. intros Hr.
  by apply fetchPage_outcome in Hr as (_ & ? & _).
Qed.

Lemma live_failed axiosDefault other n :
  axiosDefault ≠ "" → other ≠ "" → failed n →
  ∃ message, message ≠ "" ∧ live axiosDefault other n = Rejected message.
Proof.
  intros Ha Ho Hn. destruct n as [data|message|]; [done| |].
  - eexists. split; [|done]. by apply orElse_nonempty.
  - by eexists.
Qed.

Lemma truthyError_nonempty m : m ≠ "" → truthyError (Some m) = true.
Proof. intros Hm. unfold truthyError, truthy. by rewrite bool_decide_eq_false_2. Qed.

(** What a finished loader leaves on the screen. *)
Lemma display_settled page outcome st :
  1 ≤ page → 1 ≤ currentPage st →
  (∀ m, outcome = Rejected m → m ≠ "") →
  settled (display page outcome st) ∧
  (canLoadMore (display page outcome st) →
   20 * currentPage (display page outcome st) < totalResults (display page outcome st) ∧
   articles (display page outcome st) ≠ []).
Proof.
  intros Hpage Hcur Hmsg. split.
  - unfold settled. destruct outcome as [response|message]; simpl; split_and!;
      try done; intros m [= <-]; by apply Hmsg.
  - intros (_ & Hmore & _ & Herr).
    destruct outcome as [response|message];
      cbn [display hasMore error currentPage totalResults articles] in *.
    + apply andb_true_iff in Hmore as [Htotal%bool_decide_eq_true Hlen%bool_decide_eq_true].
      apply ceilDiv20_lt in Htotal. split; [done|].
      destruct (Types.articles response); [simpl in Hlen; lia|].
      case_bool_decide; [done|]. by destruct (articles st).
    + rewrite truthyError_nonempty in Herr by by apply Hmsg. done.
Qed.

End HomeScreenFacts.

(** X25: Pull-to-refresh does not reload a feed whose first page was cached
    less than 24 hours ago: the screen shows the cached page and the storage
    is left as it was, whatever the network would have answered. *)
Theorem pull_to_refresh_shows_the_cached_page env st (s : CacheStorage.Storage) e :
  s !! HomeScreenSpec.feedKey st 1 = Some (CacheStorage.SEntry e) →
  NewsApi.nowRead env - CacheStorage.CacheEntry.timestamp e ≤ 86400000 →
  let w' := HomeScreen.handleRefresh env (st, s) in
  w'.2 = s ∧
  HomeScreen.articles w'.1 = Types.articles (CacheStorage.CacheEntry.data e) ∧
  HomeScreen.error w'.1 = None ∧
  HomeScreen.refreshing w'.1 = false ∧
  HomeScreen.currentPage w'.1 = 1.
Proof.
  intros Hs Hage w'. unfold w'. rewrite handleRefresh_display.
  rewrite (request_hit st env s e Hs) by by rewrite maxAge_is_24h. done.
Qed.

Lemma pull_to_refresh_shows_the_cached_page_witness :
  HomeScreen.articles
    (HomeScreen.handleRefresh Sample.offlineBeforeExpiry
       (HomeScreen.initial, Sample.cachedAtZero)).1
  = Types.articles Sample.page.
Proof.
  apply (pull_to_refresh_shows_the_cached_page Sample.offlineBeforeExpiry
           HomeScreen.initial Sample.cachedAtZero
           {| CacheStorage.CacheEntry.data := Sample.page;
              CacheStorage.CacheEntry.timestamp := 0 |}).
  - by vm_compute.
  - simpl. lia.
Defined.

(** X26: When the request for a further page fails, the list on display and
    the page number stay as they were, the storage is not touched, an error
    text is set, and no further page is requested while it is set. *)
Theorem failed_load_more_keeps_the_list env st (s : CacheStorage.Storage) :
  HomeScreenSpec.canLoadMore st →
  1 ≤ HomeScreen.currentPage st →
  NewsApiSpec.failed (NewsApi.network env) →
  let w' := HomeScreen.handleLoadMore env (st, s) in
  w'.2 = s ∧
  HomeScreen.articles w'.1 = HomeScreen.articles st ∧
  HomeScreen.currentPage w'.1 = HomeScreen.currentPage st ∧
  (∃ message, HomeScreen.error w'.1 = Some message ∧ message ≠ "") ∧
  (∀ env', HomeScreen.handleLoadMore env' w' = w').
Proof.
  intros Hcan Hpage Hnet w'. unfold w'. rewrite handleLoadMore_display by done.
  destruct (request_later st (HomeScreen.currentPage st + 1) env s)
    as (axiosDefault & other & Ha & Ho & ->); [lia|].
  destruct (live_failed axiosDefault other _ Ha Ho Hnet) as (message & Hm & ->).
  cbn [fst snd]. split_and!; try done.
  - simpl. by rewrite bool_decide_eq_false_2 by lia.
  - by exists message.
  - intros env'. apply handleLoadMore_idle. intros (_ & _ & _ & Herr).
    cbn [HomeScreenSpec.display HomeScreen.error] in Herr.
    by rewrite truthyError_nonempty in Herr.
Qed.

Lemma failed_load_more_keeps_the_list_witness :
  HomeScreen.articles
    (HomeScreen.handleLoadMore Sample.offlineAfterExpiry (Sample.firstPageShown, ∅)).1
  = [Sample.story].
Proof.
  apply (failed_load_more_keeps_the_list Sample.offlineAfterExpiry
           Sample.firstPageShown ∅).
  - by vm_compute.
  - by vm_compute.
  - exact I.
Defined.

(** X27: When a reload of the first page (pull-to-refresh or retry) fails and
    the storage holds nothing under the feed's key, the list is emptied and an
    error text is set. *)
Theorem failed_reload_empties_the_list env st (s : CacheStorage.Storage) :
  NewsApiSpec.failed (NewsApi.network env) →
  s !! HomeScreenSpec.feedKey st 1 = None →
  ∀ handler, handler = HomeScreen.handleRefresh ∨ handler = HomeScreen.handleRetry →
  let w' := handler env (st, s) in
  w'.2 = s ∧
  HomeScreen.articles w'.1 = [] ∧
  (∃ message, HomeScreen.error w'.1 = Some message ∧ message ≠ "") ∧
  HomeScreen.loading w'.1 = false ∧
  HomeScreen.refreshing w'.1 = false.
Proof.
  intros Hnet Hs handler Hhandler w'. unfold w'.
  destruct (request_unanswered st env s Hnet Hs) as (message & Hm & Hr).
  destruct Hhandler as [-> | ->];
    rewrite ?handleRefresh_display, ?handleRetry_display, Hr; simpl;
    split_and!; try done; by exists message.
Qed.

Lemma failed_reload_empties_the_list_witness :
  HomeScreen.articles
    (HomeScreen.handleRetry Sample.offlineAfterExpiry (Sample.firstPageShown, ∅)).1
  = [].
Proof.
  apply (failed_reload_empties_the_list Sample.offlineAfterExpiry
           Sample.firstPageShown ∅).
  - exact I.
  - apply lookup_empty.
  - by right.
Defined.

(** X28: A load-more that the network answers appends the reply to the list on
    display, moves to the next page and leaves the storage as it was. A
    further page can be asked for afterwards exactly when the reply has
    articles and twenty times the new page number is below the total the reply
    reports. *)
Theorem load_more_appends_the_next_page env st (s : CacheStorage.Storage) response :
  HomeScreenSpec.canLoadMore st →
  1 ≤ HomeScreen.currentPage st →
  NewsApi.network env = NewsApi.Resolves response →
  let w' := HomeScreen.handleLoadMore env (st, s) in
  w'.2 = s ∧
  HomeScreen.articles w'.1 = HomeScreen.articles st ++ Types.articles response ∧
  HomeScreen.currentPage w'.1 = HomeScreen.currentPage st + 1 ∧
  HomeScreen.error w'.1 = None ∧
  (HomeScreenSpec.canLoadMore w'.1 ↔
   20 * (HomeScreen.currentPage st + 1) < Types.totalResults response ∧
   Types.articles response ≠ []).
Proof.
  intros Hcan Hpage Hnet w'. unfold w'. rewrite handleLoadMore_display by done.
  destruct (request_later st (HomeScreen.currentPage st + 1) env s)
    as (axiosDefault & other & Ha & Ho & ->); [lia|].
  rewrite Hnet. cbn [fst snd NewsApiSpec.live]. split_and!; try done.
  - simpl. by rewrite bool_decide_eq_false_2 by lia.
  - unfold HomeScreenSpec.canLoadMore.
    cbn [HomeScreenSpec.display HomeScreen.loadingMore HomeScreen.hasMore
         HomeScreen.loading HomeScreen.error HomeScreen.truthyError].
    rewrite andb_true_iff, !bool_decide_eq_true, ceilDiv20_lt. split.
    + intros (_ & [Htotal Hlen] & _ & _). split; [done|].
      destruct (Types.articles response); [simpl in Hlen; lia|done].
    + intros [Htotal Hne]. split_and!; try done.
      destruct (Types.articles response); [done|simpl; lia].
Qed.

Lemma load_more_appends_the_next_page_witness :
  HomeScreen.articles
    (HomeScreen.handleLoadMore Sample.onlineSecondPage (Sample.firstPageShown, ∅)).1
  = [Sample.story; Sample.story].
Proof.
  apply (load_more_appends_the_next_page Sample.onlineSecondPage
           Sample.firstPageShown ∅ Sample.storyPage).
  - by vm_compute.
  - by vm_compute.
  - reflexivity.
Defined.

Section ScreenInvariant.
Import Types CacheStorage NewsApi NewsApiSpec HomeScreen HomeScreenSpec.

Lemma steady_mount env s : steady (mount env s).1.
Proof.
  unfold mount. rewrite fetchArticles_display. simpl.
  apply display_settled; [done..|].
  intros m Hm. apply (request_rejected initial 1 env s). by rewrite <- Hm.
Qed.

Lemma steady_run e env w : steady w.1 → steady (run e env w).1.
Proof.
  destruct w as [st s]. intros Hsteady. pose proof Hsteady as [(_ & _ & _ & Hpage & _) _].
  cbn [fst] in Hpage. destruct e as [query| | |]; cbn [run].
  - rewrite handleSearch_display. cbn [fst]. apply display_settled; [done..|].
    intros m Hm. apply (searchNews_rejected query 1 env s). by rewrite <- Hm.
  - rewrite handleRefresh_display. cbn [fst]. apply display_settled; [done..|].
    intros m Hm. apply (request_rejected st 1 env s). by rewrite <- Hm.
  - rewrite handleRetry_display. cbn [fst]. apply display_settled; [done..|].
    intros m Hm. apply (request_rejected st 1 env s). by rewrite <- Hm.
  - destruct (decide (canLoadMore st)) as [Hcan|Hcan].
    + rewrite handleLoadMore_display by done. cbn [fst].
      apply display_settled; [lia|done|].
      intros m Hm. apply (request_rejected st (currentPage st + 1) env s).
      by rewrite <- Hm.
    + by rewrite handleLoadMore_idle.
Qed.

Lemma steady_runAll es : ∀ w, steady w.1 → steady (runAll es w).1.
Proof.
  unfold runAll. induction es as [|[e env] es IH]; intros w Hw; [done|].
  cbn [foldl]. apply IH. by apply steady_run.
Qed.

End ScreenInvariant.

(** X29: After the first load and any sequence of searches, pull-to-refreshes,
    retries and load-mores, whatever the network answers, the screen has no
    spinner running, a page number of at least 1 and a non-empty text for any
    error; and a further page can be asked for only when the list is not empty
    and twenty times the page number is below the reported total. *)
Theorem screen_stays_steady env (s : CacheStorage.Storage) es :
  let st := (HomeScreenSpec.runAll es (HomeScreenSpec.mount env s)).1 in
  HomeScreen.loading st = false ∧
  HomeScreen.refreshing st = false ∧
  HomeScreen.loadingMore st = false ∧
  1 ≤ HomeScreen.currentPage st ∧
  (∀ message, HomeScreen.error st = Some message → message ≠ "") ∧
  (HomeScreenSpec.canLoadMore st →
   20 * HomeScreen.currentPage st < HomeScreen.totalResults st ∧
   HomeScreen.articles st ≠ []).
Proof.
  intros st.
  destruct (steady_runAll es (HomeScreenSpec.mount env s) (steady_mount env s))
    as [(? & ? & ? & ? & ?) ?].
  done.
Qed.
